(** * DFIR Workbench API (backend/main.py): a shallow embedding

    The backend is a FastAPI application that validates client supplied
    names, removes stale output, runs external forensic binaries and serves
    what they wrote.  This development embeds the request handlers of
    [backend/main.py] as functions in a small state-and-exception monad over
    an explicit file system, and states the properties of the handlers as
    theorems about those functions.

    Modelling conventions.
    - A Python [str] is a [string]; every character is one [ascii].
    - The file system is a finite map from canonical absolute paths (lists
      of component names) to nodes.  Nodes are regular files and
      directories; there are no symbolic links, so [Path.resolve()] and
      [os.path.abspath] agree with lexical normalisation.
    - The external binaries and [json.loads] are parameters of the model.
      What a binary printed reaches the handler as text, or not at all:
      [subprocess.run(text=True)] decodes the captured bytes strictly and
      raises [UnicodeDecodeError] when they are not text in the encoding
      of the server's locale.
    - Python exceptions are values of [pyexn]; [try]/[except] is [catch]. *)

From Stdlib Require Import String Ascii List ZArith Lia Bool.
From Stdlib Require Import DecimalString.
From stdpp Require Import base option gmap strings list fin_maps.

Local Open Scope string_scope.
Local Open Scope list_scope.

(** ** Python [str] operations *)

Module PyStr.

(** [s.startswith(p)] *)
Fixpoint startswith (s p : string) {struct p} : bool :=
  match p with
  | EmptyString => true
  | String b p' =>
      match s with
      | EmptyString => false
      | String a s' => if Ascii.eqb a b then startswith s' p' else false
      end
  end.

(** [needle in hay] *)
Fixpoint contains (needle hay : string) : bool :=
  match hay with
  | EmptyString => startswith hay needle
  | String _ hay' => startswith hay needle || contains needle hay'
  end.

(** [s.endswith(p)] *)
Fixpoint endswith (s p : string) : bool :=
  if String.eqb s p then true
  else match s with
       | EmptyString => false
       | String _ s' => endswith s' p
       end.

(** [s.replace(old, new)] for a non-empty [old]: occurrences are found
    left to right and do not overlap.  [skip] counts the characters of a
    match that are still to be dropped. *)
Fixpoint replace_from (old new : string) (skip : nat) (s : string) : string :=
  match s with
  | EmptyString => EmptyString
  | String c s' =>
      match skip with
      | S k => replace_from old new k s'
      | O =>
          if startswith s old
          then new +:+ replace_from old new (String.length old - 1) s'
          else String c (replace_from old new 0 s')
      end
  end.

Definition replace (s old new : string) : string := replace_from old new 0 s.

(** [s.split(sep)] for a one character separator *)
Fixpoint split (sep : ascii) (s : string) : list string :=
  match s with
  | EmptyString => [EmptyString]
  | String c s' =>
      if Ascii.eqb c sep then EmptyString :: split sep s'
      else match split sep s' with
           | h :: t => String c h :: t
           | [] => [String c EmptyString]
           end
  end.

(** [sep.join(parts)] *)
Definition join (sep : string) (parts : list string) : string :=
  String.concat sep parts.

(** [str.isspace] on one character, for code points below 256 *)
Definition isspace (c : ascii) : bool :=
  let n := nat_of_ascii c in
  (Nat.leb 9 n && Nat.leb n 13) || (Nat.leb 28 n && Nat.leb n 32)
  || Nat.eqb n 133 || Nat.eqb n 160.

(** [s.lstrip()], [s.rstrip()] and [s.strip()] *)
Fixpoint lstrip (s : string) : string :=
  match s with
  | EmptyString => EmptyString
  | String c s' => if isspace c then lstrip s' else s
  end.

Fixpoint rstrip (s : string) : string :=
  match s with
  | EmptyString => EmptyString
  | String c s' =>
      match rstrip s' with
      | EmptyString => if isspace c then EmptyString else String c EmptyString
      | r => String c r
      end
  end.

Definition strip (s : string) : string := rstrip (lstrip s).

(** the truth value of a [str]: non-empty *)
Definition truthy (s : string) : bool :=
  match s with EmptyString => false | _ => true end.

(** the one character string holding a backslash *)
Definition backslash : string := String (ascii_of_nat 92) EmptyString.

(** [str(n)] for a natural number *)
Definition of_nat (n : nat) : string :=
  NilEmpty.string_of_uint (Nat.to_uint n).

End PyStr.

(** ** [urllib.parse.unquote]

    [%XX] with two hexadecimal digits becomes the character with that code;
    any other [%] is kept.  (Python also reads a run of escapes above [%7F]
    as UTF-8; the model keeps one character per escape.) *)

Module Urllib.

Definition hexval (c : ascii) : option nat :=
  let n := nat_of_ascii c in
  if Nat.leb 48 n && Nat.leb n 57 then Some (n - 48)
  else if Nat.leb 65 n && Nat.leb n 70 then Some (n - 55)
  else if Nat.leb 97 n && Nat.leb n 102 then Some (n - 87)
  else None.

Fixpoint unquote (s : string) : string :=
  match s with
  | EmptyString => EmptyString
  | String c s' =>
      if Ascii.eqb c "%"%char then
        match s' with
        | String h (String l rest) =>
            match hexval h, hexval l with
            | Some a, Some b => String (ascii_of_nat (16 * a + b)) (unquote rest)
            | _, _ => String c (unquote s')
            end
        | _ => String c (unquote s')
        end
      else String c (unquote s')
  end.

End Urllib.

(** ** [os.path] (posixpath): the purely textual functions *)

Module OsPath.

Definition isabs (p : string) : bool := PyStr.startswith p "/".

(** [os.path.join(a, b)] *)
Definition join (a b : string) : string :=
  if PyStr.startswith b "/" then b
  else if negb (PyStr.truthy a) || PyStr.endswith a "/" then a +:+ b
  else a +:+ "/" +:+ b.

(** number of leading slashes [normpath] keeps: 0, 1, or 2 for exactly two *)
Definition initial_slashes (path : string) : nat :=
  if PyStr.startswith path "/" then
    if PyStr.startswith path "//" && negb (PyStr.startswith path "///") then 2 else 1
  else 0.

(** the loop of [normpath] over the components; [stack] is [new_comps]
    with its last element first *)
Fixpoint norm_loop (initial : nat) (comps stack : list string) : list string :=
  match comps with
  | [] => rev stack
  | comp :: rest =>
      if String.eqb comp "" || String.eqb comp "." then norm_loop initial rest stack
      else if negb (String.eqb comp "..")
              || (Nat.eqb initial 0 && match stack with [] => true | _ => false end)
              || match stack with top :: _ => String.eqb top ".." | [] => false end
           then norm_loop initial rest (comp :: stack)
           else norm_loop initial rest (tl stack)
  end.

Fixpoint slashes (n : nat) : string :=
  match n with O => EmptyString | S k => String "/" (slashes k) end.

Definition normpath (path : string) : string :=
  if negb (PyStr.truthy path) then "."
  else
    let initial := initial_slashes path in
    let comps := norm_loop initial (PyStr.split "/" path) [] in
    let p := slashes initial +:+ PyStr.join "/" comps in
    if PyStr.truthy p then p else ".".

(** [os.path.abspath(path)] in a process whose working directory is [cwd] *)
Definition abspath (cwd path : string) : string :=
  normpath (if isabs path then path else join cwd path).

End OsPath.

(** ** [pathlib] paths *)

Module Pathlib.

(** A parsed POSIX path: the root ([""], ["/"] or ["//"]) and the names. *)
Record Path := mkPath { root : string; names : list string }.

#[global] Instance Path_eq_dec : EqDecision Path.
Proof. solve_decision. Defined.

Definition parse_root (s : string) : string :=
  match OsPath.initial_slashes s with
  | 0 => ""
  | 2 => "//"
  | _ => "/"
  end.

Definition is_name (c : string) : bool :=
  negb (String.eqb c "" || String.eqb c ".").

(** [pathlib.Path(s)] *)
Definition parse (s : string) : Path :=
  mkPath (parse_root s) (List.filter is_name (PyStr.split "/" s)).

(** [str(p)] *)
Definition to_str (p : Path) : string :=
  let s := root p +:+ PyStr.join "/" (names p) in
  if PyStr.truthy s then s else ".".

(** [p.joinpath(other)]: an absolute [other] replaces [p] *)
Definition joinpath (p : Path) (other : string) : Path :=
  let o := parse other in
  if PyStr.truthy (root o) then o
  else mkPath (root p) (names p ++ names o).

(** lexical elimination of [..]; at the root [..] stays at the root *)
Fixpoint collapse (stack comps : list string) : list string :=
  match comps with
  | [] => rev stack
  | c :: rest =>
      if String.eqb c ".." then collapse (tl stack) rest
      else collapse (c :: stack) rest
  end.

(** [p.resolve()] without symbolic links: the path is made absolute
    against [cwd] and normalised; the result is rooted at ["/"]. *)
Definition resolve (cwd : string) (p : Path) : Path :=
  let start := if PyStr.truthy (root p) then [] else rev (names (parse cwd)) in
  mkPath "/" (collapse start (names p)).

(** [p.parents]: the proper ancestors, nearest first *)
Fixpoint ancestors (r : string) (rev_names : list string) : list Path :=
  match rev_names with
  | [] => []
  | _ :: up => mkPath r (rev up) :: ancestors r up
  end.

Definition parents (p : Path) : list Path := ancestors (root p) (rev (names p)).

(** [a in l] for paths *)
Definition mem (a : Path) (l : list Path) : bool :=
  existsb (fun b => bool_decide (a = b)) l.

End Pathlib.

(** ** The file system *)

Module Fs.

Inductive node :=
| File (content : string)
| Dir.

(** canonical absolute path: the names from the root down *)
Abbreviation key := (list string).
Abbreviation fs := (gmap (list string) node).

Fixpoint has_nul (s : string) : bool :=
  match s with
  | EmptyString => false
  | String c s' => Ascii.eqb c Ascii.zero || has_nul s'
  end.

(** the node at a canonical path; the root directory always exists *)
Definition node_at (m : fs) (k : key) : option node :=
  match k with
  | [] => Some Dir
  | _ => m !! k
  end.

Definition is_dir_key (m : fs) (k : key) : bool :=
  match node_at m k with Some Dir => true | _ => false end.

(** Path resolution as the kernel does it: each component is looked up in
    the directory reached so far, which must exist and be a directory. *)
Fixpoint walk (m : fs) (cur : key) (comps : list string) : option key :=
  match comps with
  | [] => Some cur
  | c :: rest =>
      if is_dir_key m cur then
        if String.eqb c "" || String.eqb c "." then walk m cur rest
        else if String.eqb c ".." then walk m (removelast cur) rest
        else match m !! (cur ++ [c]) with
             | Some _ => walk m (cur ++ [c]) rest
             | None => None
             end
      else None
  end.

(** the canonical path a path string names, if it names anything *)
Definition namei (m : fs) (cwd path : string) : option key :=
  if negb (PyStr.truthy path) || has_nul path then None
  else
    let start := if OsPath.isabs path then [] else Pathlib.names (Pathlib.parse cwd) in
    walk m start (PyStr.split "/" path).

(** [os.stat(path)], reduced to the kind of node found *)
Definition stat (m : fs) (cwd path : string) : option node :=
  match namei m cwd path with
  | Some k => node_at m k
  | None => None
  end.

Definition exists_ (m : fs) (cwd path : string) : bool :=
  match stat m cwd path with Some _ => true | None => false end.

Definition isfile (m : fs) (cwd path : string) : bool :=
  match stat m cwd path with Some (File _) => true | _ => false end.

Definition isdir (m : fs) (cwd path : string) : bool :=
  match stat m cwd path with Some Dir => true | _ => false end.

(** [k] is [p] or lies below it *)
Definition below (p k : key) : bool := bool_decide (p `prefix_of` k).

(** what is left of the file system once the subtree at [p] is gone *)
Definition prune (p : key) (m : fs) : fs :=
  filter (fun kv => below p kv.1 = false) m.

(** the regular files below [p], as paths relative to [p] *)
Definition files_below (p : key) (m : fs) : list key :=
  omap (fun kv => match kv.2 with
                  | File _ => if below p kv.1 then Some (drop (length p) kv.1) else None
                  | Dir => None
                  end) (map_to_list m).

End Fs.

(** ** Exceptions, the world, and the handler monad *)

(** The [detail] of an [HTTPException]: a text, or the dictionary with a
    [message] and, for a failed tool, its [stderr] and [stdout]. *)
Inductive detail :=
| DetailText (text : string)
| DetailDict (message : string) (stderr stdout : option string).

Inductive pyexn :=
| HTTPException (status_code : nat) (d : detail)
| CalledProcessError (returncode : Z) (stdout stderr : string)
| OSError (what : string)
| ValueError (what : string)
| AttributeError (what : string)
| JSONDecodeError (what : string)
| UnicodeDecodeError (what : string).

(** what the handlers did to the outside, in order *)
Inductive event :=
| EvStat (path : string)
| EvOpen (path : string)
| EvScan (path : string)
| EvUnlink (path : string)
| EvRmtree (path : string)
| EvSpawn (cmd : list string) (dir : string) (before : Fs.fs).

#[global] Instance node_eq_dec : EqDecision Fs.node.
Proof. solve_decision. Defined.

#[global] Instance event_eq_dec : EqDecision event.
Proof. solve_decision. Defined.

Record world := mkWorld {
  w_fs : Fs.fs;
  w_cwd : string;
  w_trace : list event
}.

Inductive result (A : Type) :=
| Ret (a : A)
| Raise (e : pyexn).

Arguments Ret {A} a.
Arguments Raise {A} e.

Definition M (A : Type) : Type := world -> result A * world.

Definition ret {A} (a : A) : M A := fun w => (Ret a, w).

Definition raise {A} (e : pyexn) : M A := fun w => (Raise e, w).

Definition bind {A B} (m : M A) (k : A -> M B) : M B :=
  fun w =>
    match m w with
    | (Ret a, w') => k a w'
    | (Raise e, w') => (Raise e, w')
    end.

(** [try: m  except <handles> as e: h e] *)
Definition catch {A} (m : M A) (handles : pyexn -> bool) (h : pyexn -> M A) : M A :=
  fun w =>
    match m w with
    | (Raise e, w') => if handles e then h e w' else (Raise e, w')
    | r => r
    end.

Declare Scope py_scope.
Delimit Scope py_scope with py.
Notation "'let!' x ':=' m 'in' k" := (bind m (fun x => k))
  (at level 10, x name, m at level 100, k at level 200,
   format "'[v' 'let!'  x  ':='  m  'in' '/' k ']'") : py_scope.
Notation "'run!' m 'in' k" := (bind m (fun _ => k))
  (at level 10, m at level 100, k at level 200,
   format "'[v' 'run!'  m  'in' '/' k ']'") : py_scope.
Local Open Scope py_scope.

Definition emit (e : event) : M unit :=
  fun w => (Ret tt, mkWorld (w_fs w) (w_cwd w) (w_trace w ++ [e])).

Definition get_fs : M Fs.fs := fun w => (Ret (w_fs w), w).

Definition put_fs (m : Fs.fs) : M unit :=
  fun w => (Ret tt, mkWorld m (w_cwd w) (w_trace w)).

Definition getcwd : M string := fun w => (Ret (w_cwd w), w).

(** every exception class used here derives from [Exception] *)
Definition is_Exception (e : pyexn) : bool := true.

Definition is_CalledProcessError (e : pyexn) : bool :=
  match e with CalledProcessError _ _ _ => true | _ => false end.

(** [str(d)] for a detail; dictionaries print in the style of [repr] *)
Definition opt_repr (o : option string) : string :=
  match o with Some s => "'" +:+ s +:+ "'" | None => "None" end.

Definition detail_str (d : detail) : string :=
  match d with
  | DetailText t => t
  | DetailDict m e o =>
      "{'message': '" +:+ m +:+ "', 'stderr': " +:+ opt_repr e
      +:+ ", 'stdout': " +:+ opt_repr o +:+ "}"
  end.

(** [str(e)], as the f-strings of the handlers print an exception; for an
    [HTTPException] this is Starlette's ["<status>: <detail>"] *)
Definition exn_str (e : pyexn) : string :=
  match e with
  | HTTPException s d => PyStr.of_nat s +:+ ": " +:+ detail_str d
  | CalledProcessError rc _ _ => "Command returned non-zero exit status"
  | OSError s | ValueError s | AttributeError s | JSONDecodeError s
  | UnicodeDecodeError s => s
  end.

(** *** The operating system calls of the handlers *)

Module Os.

(** [os.path.exists(path)] *)
Definition path_exists (path : string) : M bool :=
  run! emit (EvStat path) in
  let! m := get_fs in let! cwd := getcwd in
  ret (Fs.exists_ m cwd path).

(** [os.path.isfile(path)] *)
Definition path_isfile (path : string) : M bool :=
  run! emit (EvStat path) in
  let! m := get_fs in let! cwd := getcwd in
  ret (Fs.isfile m cwd path).

(** [os.path.abspath(path)] *)
Definition path_abspath (path : string) : M string :=
  let! cwd := getcwd in ret (OsPath.abspath cwd path).

(** [os.remove(path)]: unlinks a regular file; anything else is an
    [OSError] and leaves the file system as it was *)
Definition remove (path : string) : M unit :=
  run! emit (EvUnlink path) in
  let! m := get_fs in let! cwd := getcwd in
  match Fs.namei m cwd path with
  | Some k =>
      match Fs.node_at m k with
      | Some (Fs.File _) => put_fs (delete k m)
      | Some Fs.Dir => raise (OSError ("[Errno 21] Is a directory: '" +:+ path +:+ "'"))
      | None => raise (OSError ("[Errno 2] No such file or directory: '" +:+ path +:+ "'"))
      end
  | None => raise (OSError ("[Errno 2] No such file or directory: '" +:+ path +:+ "'"))
  end.

(** [shutil.rmtree(path)]: removes a directory with all below it; on a
    regular file it raises and removes nothing; the root directory itself
    cannot be removed *)
Definition rmtree (path : string) : M unit :=
  run! emit (EvRmtree path) in
  let! m := get_fs in let! cwd := getcwd in
  match Fs.namei m cwd path with
  | Some k =>
      match Fs.node_at m k with
      | Some Fs.Dir =>
          run! put_fs (Fs.prune k m) in
          match k with
          | [] => raise (OSError ("[Errno 16] Device or resource busy: '" +:+ path +:+ "'"))
          | _ => ret tt
          end
      | Some (Fs.File _) => raise (OSError ("[Errno 20] Not a directory: '" +:+ path +:+ "'"))
      | None => raise (OSError ("[Errno 2] No such file or directory: '" +:+ path +:+ "'"))
      end
  | None => raise (OSError ("[Errno 2] No such file or directory: '" +:+ path +:+ "'"))
  end.

(** [open(path, 'r').read()]-style access to the text of a regular file *)
Definition read_text (path : string) : M string :=
  run! emit (EvOpen path) in
  let! m := get_fs in let! cwd := getcwd in
  match Fs.stat m cwd path with
  | Some (Fs.File content) => ret content
  | Some Fs.Dir => raise (OSError ("[Errno 21] Is a directory: '" +:+ path +:+ "'"))
  | None => raise (OSError ("[Errno 2] No such file or directory: '" +:+ path +:+ "'"))
  end.

End Os.

(** ** Text files and JSON Lines *)

Module TextIO.

Definition LF : ascii := ascii_of_nat 10.
Definition CR : ascii := ascii_of_nat 13.

(** reading in text mode with universal newlines: [\r\n] and a lone [\r]
    arrive as [\n] *)
Fixpoint universal_newlines (s : string) : string :=
  match s with
  | EmptyString => EmptyString
  | String c s' =>
      if Ascii.eqb c CR then
        match s' with
        | String d _ =>
            if Ascii.eqb d LF then universal_newlines s'
            else String LF (universal_newlines s')
        | EmptyString => String LF EmptyString
        end
      else String c (universal_newlines s')
  end.

(** the lines of a text, each with its terminator *)
Fixpoint keepends (s : string) : list string :=
  match s with
  | EmptyString => []
  | String c s' =>
      if Ascii.eqb c LF then String c EmptyString :: keepends s'
      else match keepends s' with
           | [] => [String c EmptyString]
           | l :: ls => String c l :: ls
           end
  end.

(** [for line in f], for a file opened with [open(path, 'r')] *)
Definition lines_of (content : string) : list string :=
  keepends (universal_newlines content).

End TextIO.

(** ** The application: constants and data shapes *)

Definition TOOLS_DIR : string := "/tools".
Definition DATA_DIR : string := "/data".
Definition RESULTS_DIR : string := "/data/results".

Definition HAYABUSA_DIR : string := OsPath.join TOOLS_DIR "hayabusa".
Definition CHAINSAW_DIR : string := OsPath.join TOOLS_DIR "chainsaw".
Definition TAKAJO_DIR : string := OsPath.join TOOLS_DIR "takajo".

Definition HAYABUSA_PATH : string := OsPath.join HAYABUSA_DIR "hayabusa".
Definition CHAINSAW_PATH : string := OsPath.join CHAINSAW_DIR "chainsaw".
Definition TAKAJO_PATH : string := OsPath.join TAKAJO_DIR "takajo".

Record AnalysisRequest := mkAnalysisRequest { log_file : string }.

Record HayabusaSearchRequest := mkHayabusaSearchRequest {
  search_log_file : string;
  keyword : string
}.

Record TakajoRequest := mkTakajoRequest { hayabusa_report_file : string }.

Record AnalysisResponse := mkAnalysisResponse {
  message : string;
  output_location : string;
  tool : string;
  stdout : option string;
  stderr : option string;
  command_run : string;
  generated_files : option (list string)
}.

(** [FileResponse(path=..., media_type=..., filename=...)] *)
Record FileResponse := mkFileResponse {
  fr_path : Pathlib.Path;
  fr_media_type : string;
  fr_filename : string
}.

(** what [subprocess.run(..., capture_output=True, text=True)] found.
    - [Exited]: the process ran to an exit code, and the bytes it printed
      are text in the encoding of the locale; [out] and [err] are that
      text.
    - [Undecodable]: the process ran to an exit code, but what it printed
      on [stdout] or [stderr] is not text in that encoding.
    - [NotStarted]: the process could not be started. *)
Inductive completed :=
| Exited (returncode : Z) (out err : string) (after : Fs.fs)
| Undecodable (returncode : Z) (after : Fs.fs)
| NotStarted (why : string).

(** [subprocess.CompletedProcess], as far as the handlers read it *)
Record CompletedProcess := mkCompletedProcess {
  cp_stdout : string;
  cp_stderr : string
}.

(** what the client receives: the handler's value with status 200, the
    status and detail of an [HTTPException], or the plain 500 that the
    framework sends for any other exception *)
Inductive http_response (A : Type) :=
| Http200 (body : A)
| HttpError (status_code : nat) (d : detail)
| HttpCrash.

Arguments Http200 {A} body.
Arguments HttpError {A} status_code d.
Arguments HttpCrash {A}.

Definition status {A} (r : http_response A) : nat :=
  match r with
  | Http200 _ => 200
  | HttpError s _ => s
  | HttpCrash => 500
  end.

(** the framework around a handler *)
Definition respond {A} (h : M A) (w : world) : http_response A * world :=
  match h w with
  | (Ret a, w') => (Http200 a, w')
  | (Raise (HTTPException s d), w') => (HttpError s d, w')
  | (Raise _, w') => (HttpCrash, w')
  end.

(** a request arrives at a server whose trace is still empty *)
Definition boot (m : Fs.fs) (cwd : string) : world := mkWorld m cwd [].

(** *** [pathlib] calls that look at the world *)

Module PathIO.

(** [p.resolve()]; a NUL character makes the underlying [lstat] raise *)
Definition resolve (p : Pathlib.Path) : M Pathlib.Path :=
  let! cwd := getcwd in
  if Fs.has_nul (Pathlib.to_str p) then raise (ValueError "embedded null byte")
  else ret (Pathlib.resolve cwd p).

(** [p.is_file()] *)
Definition is_file (p : Pathlib.Path) : M bool :=
  Os.path_isfile (Pathlib.to_str p).

(** [p.is_dir()] *)
Definition is_dir (p : Pathlib.Path) : M bool :=
  run! emit (EvStat (Pathlib.to_str p)) in
  let! m := get_fs in let! cwd := getcwd in
  ret (Fs.isdir m cwd (Pathlib.to_str p)).

(** [[f.relative_to(p) for f in p.rglob('*') if f.is_file()]], each as
    its names *)
Definition rglob_files (p : Pathlib.Path) : M (list (list string)) :=
  run! emit (EvScan (Pathlib.to_str p)) in
  let! m := get_fs in let! cwd := getcwd in
  match Fs.namei m cwd (Pathlib.to_str p) with
  | Some k => ret (Fs.files_below k m)
  | None => ret []
  end.

End PathIO.

(** [file_name.endsWith(suffix)]: [str] has no such attribute (the method
    is [endswith]), so evaluating the call raises *)
Definition str_endsWith (s suffix : string) : M bool :=
  raise (AttributeError "'str' object has no attribute 'endsWith'").

(** ** The request handlers

    [json_loads] is [json.loads] ([None] where it raises) and [spawn] is
    the behaviour of the external binaries: given the argument vector, the
    working directory and the file system, what the process returns, what
    it leaves on disk, and whether what it printed is text.  Calls to
    [logger] have no effect here. *)

Section Handlers.

Variable json : Type.
Variable json_loads : string -> option json.
Variable spawn : list string -> string -> Fs.fs -> completed.

(** [subprocess.run(cmd, capture_output=True, text=True, check=True, cwd=dir)]:
    the process is started and waited for, its output is decoded, and only
    then is the exit code checked; so output that does not decode raises
    [UnicodeDecodeError] whatever the exit code *)
Definition subprocess_run (cmd : list string) (dir : string) : M CompletedProcess :=
  let! m := get_fs in
  run! emit (EvSpawn cmd dir m) in
  match spawn cmd dir m with
  | Exited rc out err after =>
      run! put_fs after in
      if Z.eqb rc 0 then ret (mkCompletedProcess out err)
      else raise (CalledProcessError rc out err)
  | Undecodable rc after =>
      run! put_fs after in
      raise (UnicodeDecodeError "codec can't decode byte: invalid start byte")
  | NotStarted why => raise (OSError why)
  end.

(** the body of the loop of [get_result_file_json] over the lines of the
    open file: blank lines are skipped, every other line is decoded and
    appended, and a line that does not decode raises *)
Fixpoint decode_lines (lines : list string) (json_data : list json) : result (list json) :=
  match lines with
  | [] => Ret json_data
  | line :: rest =>
      if PyStr.truthy (PyStr.strip line) then
        match json_loads line with
        | Some v => decode_lines rest (json_data ++ [v])
        | None => Raise (JSONDecodeError "Expecting value")
        end
      else decode_lines rest json_data
  end.

(** [json_data = []] and the loop, on the content of the file *)
Definition decode_jsonl (content : string) : result (list json) :=
  decode_lines (TextIO.lines_of content) [].

Definition lift {A} (r : result A) : M A := fun w => (r, w).

(** GET /results_file/{analysis_directory}/{file_name:path} *)
Definition get_result_file (analysis_directory file_name : string) : M FileResponse :=
  catch
    (let analysis_directory := Urllib.unquote analysis_directory in
     let file_name := Urllib.unquote file_name in
     let! base_path := PathIO.resolve (Pathlib.parse RESULTS_DIR) in
     let! analysis_path := PathIO.resolve (Pathlib.joinpath base_path analysis_directory) in
     let! file_path := PathIO.resolve (Pathlib.joinpath analysis_path file_name) in
     if negb (Pathlib.mem base_path (Pathlib.parents analysis_path))
        || negb (Pathlib.mem base_path (Pathlib.parents file_path))
     then raise (HTTPException 403 (DetailText "Forbidden"))
     else
       let! is_file := PathIO.is_file file_path in
       if negb is_file
       then raise (HTTPException 404 (DetailText "File not found"))
       else ret (mkFileResponse file_path "text/plain" file_name))
    is_Exception
    (fun e => raise (HTTPException 500 (DetailText ("Internal server error: " +:+ exn_str e)))).

(** GET /results_file_json/{file_name:path} *)
Definition get_result_file_json (file_name : string) : M (list json) :=
  catch
    (let file_name := Urllib.unquote file_name in
     let! base_path := PathIO.resolve (Pathlib.parse RESULTS_DIR) in
     let! file_path := PathIO.resolve (Pathlib.joinpath base_path file_name) in
     if negb (Pathlib.mem base_path (Pathlib.parents file_path))
     then raise (HTTPException 403 (DetailText "Forbidden"))
     else
       let! is_file := PathIO.is_file file_path in
       let! rejected :=
         (if negb is_file then ret true
          else let! jsonl := str_endsWith file_name ".jsonl" in ret (negb jsonl)) in
       if rejected
       then raise (HTTPException 404 (DetailText "JSONL file not found"))
       else
         let! content := Os.read_text (Pathlib.to_str file_path) in
         let! json_data := lift (decode_jsonl content) in
         ret json_data)
    is_Exception
    (fun e => raise (HTTPException 500 (DetailText ("Internal server error: " +:+ exn_str e)))).

(** the [except subprocess.CalledProcessError as e] clause of the
    analysis handlers *)
Definition tool_failed {A} (what : string) (e : pyexn) : M A :=
  match e with
  | CalledProcessError _ out err =>
      raise (HTTPException 500 (DetailDict what (Some err) (Some out)))
  | _ => raise e
  end.

(** [".." in name or not os.path.isfile(path)] *)
Definition dotdot_or_missing (name path : string) : M bool :=
  if PyStr.contains ".." name then ret true
  else let! is_file := Os.path_isfile path in ret (negb is_file).

(** POST /analyze/hayabusa *)
Definition analyze_hayabusa (request : AnalysisRequest) : M AnalysisResponse :=
  let log_file := log_file request in
  let log_path := OsPath.join DATA_DIR log_file in
  let output_jsonl := OsPath.join RESULTS_DIR (log_file +:+ "-hayabusa-report.jsonl") in
  let! present := Os.path_exists HAYABUSA_PATH in
  if negb present then
    raise (HTTPException 500
             (DetailDict ("Hayabusa binary not found at " +:+ HAYABUSA_PATH) None None))
  else
  let! rejected := dotdot_or_missing log_file log_path in
  if rejected then
    raise (HTTPException 404
             (DetailDict ("Log file not found at " +:+ log_path +:+ ".") None None))
  else
  let cmd := [HAYABUSA_PATH; "json-timeline"; "-f"; log_path; "-o"; output_jsonl;
              "-L"; "--no-wizard"] in
  let command_run := PyStr.join " " cmd in
  let! stale := Os.path_exists output_jsonl in
  run! (if stale then Os.remove output_jsonl else ret tt) in
  catch
    (let! result := subprocess_run cmd HAYABUSA_DIR in
     ret (mkAnalysisResponse
            ("Hayabusa analysis complete for " +:+ log_file)
            output_jsonl
            "Hayabusa"
            (Some (cp_stdout result))
            (Some (cp_stderr result))
            command_run
            None))
    is_CalledProcessError
    (tool_failed "Hayabusa analysis failed.").

(** POST /analyze/hayabusa/search *)
Definition analyze_hayabusa_search (request : HayabusaSearchRequest) : M AnalysisResponse :=
  let log_file := search_log_file request in
  let keyword := keyword request in
  let log_path := OsPath.join DATA_DIR log_file in
  let output_csv :=
    OsPath.join RESULTS_DIR (log_file +:+ "-search-" +:+ keyword +:+ ".csv") in
  let! present := Os.path_exists HAYABUSA_PATH in
  if negb present then
    raise (HTTPException 500
             (DetailDict ("Hayabusa binary not found at " +:+ HAYABUSA_PATH) None None))
  else
  let! rejected := dotdot_or_missing log_file log_path in
  if rejected then
    raise (HTTPException 404
             (DetailDict ("Log file not found at " +:+ log_path +:+ ".") None None))
  else
  let cmd := [HAYABUSA_PATH; "search"; "-f"; log_path; "-k"; keyword; "-o"; output_csv] in
  let command_run := PyStr.join " " cmd in
  let! stale := Os.path_exists output_csv in
  run! (if stale then Os.remove output_csv else ret tt) in
  catch
    (let! result := subprocess_run cmd HAYABUSA_DIR in
     ret (mkAnalysisResponse
            ("Hayabusa search for '" +:+ keyword +:+ "' complete on " +:+ log_file)
            output_csv
            "Hayabusa Search"
            (Some (cp_stdout result))
            (Some (cp_stderr result))
            command_run
            None))
    is_CalledProcessError
    (tool_failed "Hayabusa search failed.").

(** POST /analyze/chainsaw: the handler builds the command and answers
    without running it *)
Definition analyze_chainsaw (request : AnalysisRequest) : M AnalysisResponse :=
  let log_file := log_file request in
  let log_path := OsPath.join DATA_DIR log_file in
  let output_json := OsPath.join RESULTS_DIR (log_file +:+ "-chainsaw-report.json") in
  let! present := Os.path_exists CHAINSAW_PATH in
  if negb present then
    raise (HTTPException 500
             (DetailDict ("Chainsaw binary not found at " +:+ CHAINSAW_PATH) None None))
  else
  let! rejected := dotdot_or_missing log_file log_path in
  if rejected then
    raise (HTTPException 404
             (DetailDict ("Log file not found at " +:+ log_path +:+ ".") None None))
  else
  let cmd := [CHAINSAW_PATH; "hunt"; "-f"; log_path; "--json"; "-o"; output_json;
              "--no-banner"] in
  let command_run := PyStr.join " " cmd in
  ret (mkAnalysisResponse
         ("Chainsaw analysis STUB executed for " +:+ log_file)
         output_json
         "Chainsaw"
         (Some "This is a stub. Chainsaw was not actually executed.")
         None
         command_run
         None).

(** the scan of the output directory after a successful Takajo run *)
Definition scan_generated (output_directory : string) : M (list string) :=
  catch
    (let output_path := Pathlib.parse output_directory in
     let! is_dir := PathIO.is_dir output_path in
     if is_dir then
       let! found := PathIO.rglob_files output_path in
       ret (map (fun names => PyStr.replace (PyStr.join "/" names) PyStr.backslash "/") found)
     else ret [])
    is_Exception
    (fun _ => ret []).

(** POST /analyze/takajo *)
Definition analyze_takajo (request : TakajoRequest) : M AnalysisResponse :=
  let hayabusa_report_file := hayabusa_report_file request in
  let! report_path := Os.path_abspath hayabusa_report_file in
  let output_directory :=
    PyStr.replace report_path "-hayabusa-report.jsonl" "-takajo-analysis" in
  let! present := Os.path_exists TAKAJO_PATH in
  if negb present then
    raise (HTTPException 500
             (DetailDict ("Takajo binary not found at " +:+ TAKAJO_PATH) None None))
  else
  let! rejected := dotdot_or_missing report_path report_path in
  if rejected then
    raise (HTTPException 404
             (DetailDict "Hayabusa report file (.jsonl) not found." None None))
  else
  let! stale := Os.path_exists output_directory in
  run! (if stale then
          catch (Os.rmtree output_directory) is_Exception
            (fun e => raise (HTTPException 500
                               (DetailText ("Failed to remove old analysis directory: "
                                            +:+ exn_str e))))
        else ret tt) in
  let cmd := [TAKAJO_PATH; "automagic"; "-t"; report_path; "-o"; output_directory] in
  let command_run := PyStr.join " " cmd in
  catch
    (let! result := subprocess_run cmd TAKAJO_DIR in
     let! generated_files := scan_generated output_directory in
     ret (mkAnalysisResponse
            ("Takajo 'automagic' analysis complete for " +:+ hayabusa_report_file)
            output_directory
            "Takajo"
            (Some (cp_stdout result))
            (Some (cp_stderr result))
            command_run
            (Some generated_files)))
    is_CalledProcessError
    (tool_failed "Takajo analysis failed.").

(** the four analysis routes *)
Inductive api_call :=
| PostHayabusa (request : AnalysisRequest)
| PostHayabusaSearch (request : HayabusaSearchRequest)
| PostChainsaw (request : AnalysisRequest)
| PostTakajo (request : TakajoRequest).

Definition analyze (c : api_call) : M AnalysisResponse :=
  match c with
  | PostHayabusa r => analyze_hayabusa r
  | PostHayabusaSearch r => analyze_hayabusa_search r
  | PostChainsaw r => analyze_chainsaw r
  | PostTakajo r => analyze_takajo r
  end.

End Handlers.

(** ** Vocabulary of the properties *)

(** the output location a call declares, computed as the handler does *)
Definition declared_output (cwd : string) (c : api_call) : string :=
  match c with
  | PostHayabusa r =>
      OsPath.join RESULTS_DIR (log_file r +:+ "-hayabusa-report.jsonl")
  | PostHayabusaSearch r =>
      OsPath.join RESULTS_DIR
        (search_log_file r +:+ "-search-" +:+ keyword r +:+ ".csv")
  | PostChainsaw r =>
      OsPath.join RESULTS_DIR (log_file r +:+ "-chainsaw-report.json")
  | PostTakajo r =>
      PyStr.replace (OsPath.abspath cwd (hayabusa_report_file r))
        "-hayabusa-report.jsonl" "-takajo-analysis"
  end.

(** the binary whose presence a call checks first *)
Definition binary_of (c : api_call) : string :=
  match c with
  | PostHayabusa _ | PostHayabusaSearch _ => HAYABUSA_PATH
  | PostChainsaw _ => CHAINSAW_PATH
  | PostTakajo _ => TAKAJO_PATH
  end.

(** the [log_file] of a call that has one *)
Definition log_file_of (c : api_call) : option string :=
  match c with
  | PostHayabusa r | PostChainsaw r => Some (log_file r)
  | PostHayabusaSearch r => Some (search_log_file r)
  | PostTakajo _ => None
  end.

(** the path a call checks with [os.path.isfile] *)
Definition input_path (cwd : string) (c : api_call) : string :=
  match c with
  | PostHayabusa r | PostChainsaw r => OsPath.join DATA_DIR (log_file r)
  | PostHayabusaSearch r => OsPath.join DATA_DIR (search_log_file r)
  | PostTakajo r => OsPath.abspath cwd (hayabusa_report_file r)
  end.

(** the string a call searches for [..] *)
Definition guarded_name (cwd : string) (c : api_call) : string :=
  match c with
  | PostHayabusa r | PostChainsaw r => log_file r
  | PostHayabusaSearch r => search_log_file r
  | PostTakajo r => OsPath.abspath cwd (hayabusa_report_file r)
  end.

(** a call passes validation: the binary is there, the guarded name has
    no [..], and the input is a regular file *)
Definition validated (m : Fs.fs) (cwd : string) (c : api_call) : bool :=
  Fs.exists_ m cwd (binary_of c)
  && negb (PyStr.contains ".." (guarded_name cwd c))
  && Fs.isfile m cwd (input_path cwd c).

(** the calls whose handler runs a tool; the Chainsaw handler is a stub *)
Definition runs_tool (c : api_call) : bool :=
  match c with PostChainsaw _ => false | _ => true end.

(** the removal a handler applies to a stale output *)
Definition remover (c : api_call) : string -> M unit :=
  match c with PostTakajo _ => Os.rmtree | _ => Os.remove end.

(** the [output_location] of a successful answer *)
Definition output_location_of (r : http_response AnalysisResponse) : option string :=
  match r with
  | Http200 body => Some (output_location body)
  | _ => None
  end.

Definition is_spawn (e : event) : bool :=
  match e with EvSpawn _ _ _ => true | _ => false end.

(** the paths an event names; for a process, the absolute paths among the
    arguments it is given *)
Definition paths_of (e : event) : list string :=
  match e with
  | EvStat p | EvOpen p | EvScan p | EvUnlink p | EvRmtree p => [p]
  | EvSpawn cmd _ _ => List.filter OsPath.isabs (tl cmd)
  end.

(** the paths a trace removed, or tried to *)
Definition removed_paths (t : list event) : list string :=
  flat_map (fun e => match e with
                     | EvUnlink p | EvRmtree p => [p]
                     | _ => []
                     end) t.

(** [path] names a location strictly inside [root] (both absolute) *)
Definition strictly_inside (root path : string) : bool :=
  Pathlib.mem (Pathlib.resolve "/" (Pathlib.parse root))
    (Pathlib.parents (Pathlib.resolve "/" (Pathlib.parse path))).

Definition inside_a_root (path : string) : bool :=
  strictly_inside DATA_DIR path || strictly_inside RESULTS_DIR path.

(** the paths a trace touched that are not strictly inside a root *)
Definition outside_paths (t : list event) : list string :=
  List.filter (fun p => negb (inside_a_root p)) (flat_map paths_of t).

(** the results root and the target of GET /results_file, as the handler
    computes them *)
Definition results_base (cwd : string) : Pathlib.Path :=
  Pathlib.resolve cwd (Pathlib.parse RESULTS_DIR).

Definition results_target (cwd analysis_directory file_name : string) : Pathlib.Path :=
  let analysis_path :=
    Pathlib.resolve cwd
      (Pathlib.joinpath (results_base cwd) (Urllib.unquote analysis_directory)) in
  Pathlib.resolve cwd (Pathlib.joinpath analysis_path (Urllib.unquote file_name)).

(** a line that the decoding loop does not skip *)
Definition nonblank (line : string) : bool := PyStr.truthy (PyStr.strip line).

Fixpoint has_nonspace (s : string) : bool :=
  match s with
  | EmptyString => false
  | String c s' => negb (PyStr.isspace c) || has_nonspace s'
  end.

Fixpoint has_char (c : ascii) (s : string) : bool :=
  match s with
  | EmptyString => false
  | String d s' => Ascii.eqb d c || has_char c s'
  end.

(** a row holds no line break *)
Definition one_line (row : string) : bool :=
  negb (has_char TextIO.LF row) && negb (has_char TextIO.CR row).

Definition nl : string := String TextIO.LF EmptyString.

(** text built from rows, each closed by a line feed *)
Fixpoint unlines (rows : list string) : string :=
  match rows with
  | [] => EmptyString
  | row :: rest => row +:+ nl +:+ unlines rest
  end.

(** *** A sample installation *)

Definition demo_fs : Fs.fs :=
  list_to_map
    [ (["tools"], Fs.Dir);
      (["tools"; "hayabusa"], Fs.Dir);
      (["tools"; "hayabusa"; "hayabusa"], Fs.File "ELF");
      (["tools"; "chainsaw"], Fs.Dir);
      (["tools"; "chainsaw"; "chainsaw"], Fs.File "ELF");
      (["tools"; "takajo"], Fs.Dir);
      (["tools"; "takajo"; "takajo"], Fs.File "ELF");
      (["data"], Fs.Dir);
      (["data"; "evtx1.evtx"], Fs.File "EVTX");
      (["data"; "my..log.evtx"], Fs.File "EVTX");
      (["data"; "blocked.evtx"], Fs.File "EVTX");
      (["data"; "results"], Fs.Dir);
      (["data"; "results"; "evtx1.evtx-hayabusa-report.jsonl"], Fs.File "{}");
      (["data"; "results"; "evtx1.evtx-takajo-analysis"], Fs.Dir);
      (["data"; "results"; "evtx1.evtx-takajo-analysis"; "old.csv"], Fs.File "stale");
      (["data"; "results"; "blocked.evtx-hayabusa-report.jsonl"], Fs.Dir);
      (["data"; "results"; "notes.txt"], Fs.File "plain");
      (["data"; "results"; "report..old.jsonl"], Fs.File "{}");
      (["etc"], Fs.Dir);
      (["etc"; "passwd"], Fs.File "root:x:0:0");
      (["srv"], Fs.Dir);
      (["srv"; "case-hayabusa-report.jsonl"], Fs.File "{}");
      (["srv"; "case-takajo-analysis"], Fs.Dir);
      (["srv"; "case-takajo-analysis"; "evidence.csv"], Fs.File "kept elsewhere") ].

(** the same installation before the tools volume is mounted *)
Definition bare_fs : Fs.fs :=
  list_to_map
    [ (["data"], Fs.Dir);
      (["data"; "evtx1.evtx"], Fs.File "EVTX");
      (["data"; "results"], Fs.Dir) ].

(** a tool that succeeds and writes nothing *)
Definition tool_ok (cmd : list string) (dir : string) (m : Fs.fs) : completed :=
  Exited 0 "done" "" m.

(** a tool that fails on every input *)
Definition tool_fails (cmd : list string) (dir : string) (m : Fs.fs) : completed :=
  Exited 1 "" "Error: invalid EVTX file" m.

(** a decoder that knows the empty object only *)
Definition toy_loads (line : string) : option nat :=
  if String.eqb (PyStr.strip line) "{}" then Some 0 else None.

(** two objects with blank lines between them *)
Definition good_jsonl : string := unlines ["{}"; ""; "   "; "{}"].

(** a malformed line after a good one *)
Definition bad_jsonl : string := unlines ["{}"; "{oops"; "{}"].

(** ** The listing routes *)

Record ToolCheckResponse := mkToolCheckResponse {
  name : string;
  exists_ : bool;
  path : string
}.

Module Listing.

(** the names of the entries of the directory at [k] *)
Definition children (k : Fs.key) (m : Fs.fs) : list string :=
  omap (fun kv => match last kv.1 with
                  | Some n => if bool_decide (kv.1 = k ++ [n]) then Some n else None
                  | None => None
                  end) (map_to_list m).

(** [os.listdir(path)]: the entry names of a directory, in the order the
    file system gives them; anything but a directory raises *)
Definition listdir (path : string) : M (list string) :=
  run! emit (EvScan path) in
  let! m := get_fs in let! cwd := getcwd in
  match Fs.stat m cwd path, Fs.namei m cwd path with
  | Some Fs.Dir, Some k => ret (children k m)
  | Some (Fs.File _), _ =>
      raise (OSError ("[Errno 20] Not a directory: '" +:+ path +:+ "'"))
  | _, _ => raise (OSError ("[Errno 2] No such file or directory: '" +:+ path +:+ "'"))
  end.

End Listing.

(** GET / *)
Definition read_root : M (string * string) :=
  ret ("message", "DFIR Workbench API is running").

(** the loop of [check_tools] over the tool table *)
Fixpoint check_each (tools : list (string * string)) (response : list ToolCheckResponse)
  : M (list ToolCheckResponse) :=
  match tools with
  | [] => ret response
  | tool :: rest =>
      let! present := Os.path_exists (snd tool) in
      check_each rest (response ++ [mkToolCheckResponse (fst tool) present (snd tool)])
  end.

(** GET /tools *)
Definition check_tools : M (list ToolCheckResponse) :=
  let tools := [("Hayabusa", HAYABUSA_PATH);
                ("Chainsaw", CHAINSAW_PATH);
                ("Takajo", TAKAJO_PATH)] in
  check_each tools [].

(** [[f for f in names if os.path.isfile(os.path.join(dir, f))]] *)
Fixpoint keep_files (dir : string) (names : list string) : M (list string) :=
  match names with
  | [] => ret []
  | f :: rest =>
      let! is_file := Os.path_isfile (OsPath.join dir f) in
      let! kept := keep_files dir rest in
      ret (if is_file then f :: kept else kept)
  end.

(** the body that [get_logs] and [get_result_logs] share; they differ in
    the directory only *)
Definition scan_directory (dir : string) : M (list string) :=
  let! present := Os.path_exists dir in
  if negb present then ret []
  else
    catch
      (let! names := Listing.listdir dir in
       let! all_files := keep_files dir names in
       let valid_logs :=
         List.filter (fun f => negb (String.eqb f ".gitkeep")) all_files in
       ret valid_logs)
      is_Exception
      (fun _ => ret []).

(** GET /logs *)
Definition get_logs : M (list string) := scan_directory DATA_DIR.

(** GET /logs/results *)
Definition get_result_logs : M (list string) := scan_directory RESULTS_DIR.

(** *** Vocabulary of the further properties *)

(** the answer of a call whose input fails the [..] and [isfile] test *)
Definition input_not_found (cwd : string) (c : api_call) : http_response AnalysisResponse :=
  match c with
  | PostTakajo _ =>
      HttpError 404 (DetailDict "Hayabusa report file (.jsonl) not found." None None)
  | _ =>
      HttpError 404
        (DetailDict ("Log file not found at " +:+ input_path cwd c +:+ ".") None None)
  end.

(** one entry of [generated_files], from the names below the output
    directory *)
Definition render_relative (names : list string) : string :=
  PyStr.replace (PyStr.join "/" names) PyStr.backslash "/".

(** the directory a successful Takajo run scans:
    [str(pathlib.Path(output_directory))] *)
Definition scanned_directory (cwd : string) (r : TakajoRequest) : string :=
  Pathlib.to_str (Pathlib.parse (declared_output cwd (PostTakajo r))).

(** the entry names a listing route does not drop *)
Definition not_placeholder (f : string) : bool := negb (String.eqb f ".gitkeep").

(** the two listing routes, the directory each one scans, and its
    canonical path *)
Inductive listing := Logs | ResultLogs.

Definition listing_route (r : listing) : M (list string) :=
  match r with Logs => get_logs | ResultLogs => get_result_logs end.

Definition listing_dir (r : listing) : string :=
  match r with Logs => DATA_DIR | ResultLogs => RESULTS_DIR end.

Definition listing_key (r : listing) : list string :=
  match r with Logs => ["data"] | ResultLogs => ["data"; "results"] end.

(** the scanned directory is there, as a directory *)
Definition mounted (m : Fs.fs) (r : listing) : Prop :=
  m !! ["data"] = Some Fs.Dir
  /\ match r with
     | Logs => True
     | ResultLogs => m !! ["data"; "results"] = Some Fs.Dir
     end.

(** a name as a directory entry has it: not empty, not [.] or [..], and
    without a slash or a NUL *)
Definition plain_name (s : string) : bool :=
  PyStr.truthy s
  && negb (String.eqb s ".") && negb (String.eqb s "..")
  && negb (has_char "/" s) && negb (Fs.has_nul s).

(** the working directory a call gives to its tool *)
Definition tool_dir (c : api_call) : string :=
  match c with
  | PostHayabusa _ | PostHayabusaSearch _ => HAYABUSA_DIR
  | PostChainsaw _ => CHAINSAW_DIR
  | PostTakajo _ => TAKAJO_DIR
  end.

(** the argument vector a call builds *)
Definition command_of (cwd : string) (c : api_call) : list string :=
  match c with
  | PostHayabusa _ =>
      [HAYABUSA_PATH; "json-timeline"; "-f"; input_path cwd c; "-o";
       declared_output cwd c; "-L"; "--no-wizard"]
  | PostHayabusaSearch r =>
      [HAYABUSA_PATH; "search"; "-f"; input_path cwd c; "-k"; keyword r; "-o";
       declared_output cwd c]
  | PostChainsaw _ =>
      [CHAINSAW_PATH; "hunt"; "-f"; input_path cwd c; "--json"; "-o";
       declared_output cwd c; "--no-banner"]
  | PostTakajo _ =>
      [TAKAJO_PATH; "automagic"; "-t"; input_path cwd c; "-o"; declared_output cwd c]
  end.

(** the display name of the tool in the "binary not found" message *)
Definition tool_label (c : api_call) : string :=
  match c with
  | PostHayabusa _ | PostHayabusaSearch _ => "Hayabusa"
  | PostChainsaw _ => "Chainsaw"
  | PostTakajo _ => "Takajo"
  end.

(** the answer of a call whose binary is missing *)
Definition binary_not_found (c : api_call) : http_response AnalysisResponse :=
  HttpError 500
    (DetailDict (tool_label c +:+ " binary not found at " +:+ binary_of c) None None).

(** events that only look at the file system *)
Definition is_stat (e : event) : bool :=
  match e with EvStat _ => true | _ => false end.



(** a tool that cannot be started *)
Definition tool_missing_loader (cmd : list string) (dir : string) (m : Fs.fs) : completed :=
  NotStarted "[Errno 8] Exec format error".

(** a tool that writes one summary file under its output argument *)
Definition tool_writes (cmd : list string) (dir : string) (m : Fs.fs) : completed :=
  Exited 0 "done" ""
    (<[ ["data"; "results"; "evtx1.evtx-takajo-analysis"; "summary.csv"] := Fs.File "a,b" ]>
       (<[ ["data"; "results"; "evtx1.evtx-takajo-analysis"] := Fs.Dir ]> m)).

(** an installation with a placeholder file in the data directory *)
Definition kept_fs : Fs.fs :=
  list_to_map
    [ (["data"], Fs.Dir);
      (["data"; ".gitkeep"], Fs.File "");
      (["data"; "evtx1.evtx"], Fs.File "EVTX");
      (["data"; "results"], Fs.Dir);
      (["data"; "results"; ".gitkeep"], Fs.File "");
      (["data"; "results"; "evtx1.evtx-hayabusa-report.jsonl"], Fs.File "{}");
      (["data"; "results"; "evtx1.evtx-takajo-analysis"], Fs.Dir) ].

(** * Properties *)

(** ** The textual functions on small inputs *)

Example startswith_ex : PyStr.startswith "/etc/foo" "/" = true.
Proof. reflexivity. Qed.

Example contains_ex :
  PyStr.contains ".." "my..log.evtx" = true /\ PyStr.contains ".." "a.b.c" = false.
Proof. split; reflexivity. Qed.

Example replace_ex :
  PyStr.replace "/r/x-hayabusa-report.jsonl" "-hayabusa-report.jsonl" "-takajo-analysis"
  = "/r/x-takajo-analysis".
Proof. reflexivity. Qed.

Example replace_all_ex : PyStr.replace "aXYbXYXY" "XY" "-" = "a-b--".
Proof. reflexivity. Qed.

Example split_ex : PyStr.split "/" "/a//b/" = [""; "a"; ""; "b"; ""].
Proof. reflexivity. Qed.

Example unquote_ex : Urllib.unquote "%2e%2E%2fetc%zz%4" = "../etc%zz%4".
Proof. reflexivity. Qed.

Example normpath_ex :
  OsPath.normpath "/data/results/./x//y/../z" = "/data/results/x/z"
  /\ OsPath.normpath "//a/../../b" = "//b"
  /\ OsPath.normpath "a/../../b" = "../b".
Proof. repeat split; reflexivity. Qed.

Example join_absolute_ex : OsPath.join DATA_DIR "/etc/passwd" = "/etc/passwd".
Proof. reflexivity. Qed.

Example resolve_ex :
  Pathlib.to_str
    (Pathlib.resolve "/" (Pathlib.joinpath (Pathlib.parse RESULTS_DIR) "../../etc/foo"))
  = "/etc/foo".
Proof. reflexivity. Qed.

Example lines_of_ex :
  TextIO.lines_of (String "a" (String TextIO.CR (String TextIO.LF (String TextIO.LF "b"))))
  = [String "a" (String TextIO.LF ""); String TextIO.LF ""; "b"].
Proof. reflexivity. Qed.

(** ** Stepping through a handler *)

Ltac run_handler :=
  cbv beta iota zeta delta
    [respond boot analyze analyze_hayabusa analyze_hayabusa_search analyze_chainsaw
     analyze_takajo get_result_file get_result_file_json scan_generated
     subprocess_run tool_failed dotdot_or_missing str_endsWith lift
     bind ret raise catch emit get_fs put_fs getcwd
     Os.path_exists Os.path_isfile Os.path_abspath Os.remove Os.rmtree Os.read_text
     PathIO.resolve PathIO.is_file PathIO.is_dir PathIO.rglob_files
     is_Exception is_CalledProcessError
     w_fs w_cwd w_trace fst snd status
     log_file search_log_file keyword hayabusa_report_file
     declared_output binary_of log_file_of runs_tool remover
     negb orb andb app].

Ltac run_handler_in H :=
  cbv beta iota zeta delta
    [respond boot analyze analyze_hayabusa analyze_hayabusa_search analyze_chainsaw
     analyze_takajo get_result_file get_result_file_json scan_generated
     subprocess_run tool_failed dotdot_or_missing str_endsWith lift
     bind ret raise catch emit get_fs put_fs getcwd
     Os.path_exists Os.path_isfile Os.path_abspath Os.remove Os.rmtree Os.read_text
     PathIO.resolve PathIO.is_file PathIO.is_dir PathIO.rglob_files
     is_Exception is_CalledProcessError
     w_fs w_cwd w_trace fst snd status
     log_file search_log_file keyword hayabusa_report_file
     declared_output binary_of log_file_of runs_tool remover
     negb orb andb app] in H.

(** ** GET /results_file_json *)

(** whatever the request, the handler ends in its own [except] clause *)
Lemma get_result_file_json_status (json : Type) (json_loads : string -> option json)
    (file_name : string) (m : Fs.fs) (cwd : string) :
  status (fst (respond (get_result_file_json json json_loads file_name) (boot m cwd))) = 500.
Proof.
  run_handler.
  repeat match goal with
         | |- context [if ?b then _ else _] => destruct b; cbv beta iota
         end; reflexivity.
Qed.

(** C3. GET /results_file_json never succeeds: once the file is found to
    be a regular file the handler evaluates [file_name.endsWith], which
    raises [AttributeError]; every other path raises as well, and the
    handler turns each exception into status 500.  The second part runs the
    handler on an existing [.jsonl] file inside the results root. *)
Theorem results_file_json_always_500 :
  (forall (json : Type) (json_loads : string -> option json) file_name m cwd,
      status (fst (respond (get_result_file_json json json_loads file_name)
                     (boot m cwd))) = 500)
  /\ Fs.isfile demo_fs "/app" "/data/results/evtx1.evtx-hayabusa-report.jsonl" = true
  /\ (exists why,
         fst (respond (get_result_file_json nat toy_loads "evtx1.evtx-hayabusa-report.jsonl")
                (boot demo_fs "/app"))
         = HttpError 500 (DetailText ("Internal server error: " +:+ why))).
Proof.
  split; [ intros; apply get_result_file_json_status | ].
  split; [ vm_compute; reflexivity | ].
  eexists. vm_compute. reflexivity.
Qed.

(** ** GET /results_file *)

(** the handler answers 200 or 500 and nothing else: each [HTTPException]
    it raises is caught by its own [except Exception] *)
Lemma get_result_file_status (analysis_directory file_name : string)
    (m : Fs.fs) (cwd : string) :
  let r := fst (respond (get_result_file analysis_directory file_name) (boot m cwd)) in
  status r = 200 \/ status r = 500.
Proof.
  run_handler.
  repeat match goal with
         | |- context [if ?b then _ else _] => destruct b; cbv beta iota
         end; auto.
Qed.

(** C1. When the target of GET /results_file is not strictly inside the
    results root, the handler raises the 403 [HTTPException] inside its own
    [try] block, whose [except Exception] clause catches it and raises
    status 500 instead: the client never sees 403.  No file is served and
    nothing on disk changes. *)
Theorem results_file_escape_is_500 (analysis_directory file_name : string)
    (m : Fs.fs) (cwd : string) :
  Pathlib.mem (results_base cwd)
    (Pathlib.parents (results_target cwd analysis_directory file_name)) = false ->
  let out := respond (get_result_file analysis_directory file_name) (boot m cwd) in
  status (fst out) = 500
  /\ status (fst out) <> 403
  /\ (forall body, fst out <> Http200 body)
  /\ w_fs (snd out) = m.
Proof.
  intros Hesc.
  unfold results_target, results_base in Hesc.
  run_handler.
  repeat match goal with
         | |- context [if Fs.has_nul ?s then _ else _] => destruct (Fs.has_nul s); cbv beta iota
         end;
    try (repeat split; [discriminate | intros; discriminate]).
  rewrite Hesc.
  match goal with
  | |- context [if Pathlib.mem ?a ?b then _ else _] => destruct (Pathlib.mem a b)
  end; run_handler; repeat split; try discriminate; intros; discriminate.
Qed.

Lemma results_file_escape_is_500_witness :
  Pathlib.mem (results_base "/app")
    (Pathlib.parents (results_target "/app" ".." "../etc/foo")) = false
  /\ Pathlib.to_str (results_target "/app" ".." "../etc/foo") = "/etc/foo"
  /\ status (fst (respond (get_result_file ".." "../etc/foo") (boot demo_fs "/app"))) = 500.
Proof.
  split; [ vm_compute; reflexivity | ].
  split; [ vm_compute; reflexivity | ].
  apply (results_file_escape_is_500 ".." "../etc/foo" demo_fs "/app").
  vm_compute; reflexivity.
Defined.

(** ** Validation in the analysis handlers *)

(** C10, as stated, fails when the tool binary is missing: the check for
    the binary comes first and answers 500. *)
Lemma dotdot_log_file_not_always_404 :
  ~ (forall spawn c name m cwd,
        log_file_of c = Some name ->
        PyStr.contains ".." name = true ->
        status (fst (respond (analyze spawn c) (boot m cwd))) = 404).
Proof.
  intros H.
  specialize (H tool_ok (PostHayabusa (mkAnalysisRequest "my..log.evtx"))
                "my..log.evtx" bare_fs "/app" eq_refl eq_refl).
  vm_compute in H. discriminate H.
Qed.

(** C10, amended.  When the binary of the called tool is present, a
    [log_file] containing [..] is answered with 404 "Log file not found",
    whether or not it names a file inside the data root.  The handler has
    then only looked for the binary: nothing was removed, nothing was
    started, and the file system is as before. *)
Theorem dotdot_log_file_is_404 (spawn : list string -> string -> Fs.fs -> completed)
    (c : api_call) (name : string) (m : Fs.fs) (cwd : string) :
  log_file_of c = Some name ->
  PyStr.contains ".." name = true ->
  Fs.exists_ m cwd (binary_of c) = true ->
  respond (analyze spawn c) (boot m cwd)
  = (HttpError 404
       (DetailDict ("Log file not found at " +:+ OsPath.join DATA_DIR name +:+ ".")
          None None),
     mkWorld m cwd [EvStat (binary_of c)]).
Proof.
  intros Hname Hdots Hbin.
  destruct c as [r | r | r | r]; destruct r;
    run_handler_in Hname; try discriminate; injection Hname as <-;
    run_handler_in Hbin; run_handler;
    rewrite Hbin; run_handler; rewrite Hdots; reflexivity.
Qed.

Lemma dotdot_log_file_is_404_witness :
  PyStr.contains ".." "my..log.evtx" = true
  /\ Fs.isfile demo_fs "/app" "/data/my..log.evtx" = true
  /\ respond (analyze tool_ok (PostHayabusaSearch (mkHayabusaSearchRequest "my..log.evtx" "mimikatz")))
       (boot demo_fs "/app")
     = (HttpError 404 (DetailDict "Log file not found at /data/my..log.evtx." None None),
        mkWorld demo_fs "/app" [EvStat HAYABUSA_PATH]).
Proof.
  split; [ reflexivity | split; [ vm_compute; reflexivity | ] ].
  apply (dotdot_log_file_is_404 tool_ok
           (PostHayabusaSearch (mkHayabusaSearchRequest "my..log.evtx" "mimikatz"))
           "my..log.evtx" demo_fs "/app");
    [ reflexivity | reflexivity | vm_compute; reflexivity ].
Defined.

(** ** POST /analyze/chainsaw *)

(** C4, as stated, fails: a request that passes validation does not start
    the hunt binary. *)
Lemma chainsaw_run_is_not_started :
  ~ (forall spawn r m cwd,
        Fs.exists_ m cwd CHAINSAW_PATH = true ->
        PyStr.contains ".." (log_file r) = false ->
        Fs.isfile m cwd (OsPath.join DATA_DIR (log_file r)) = true ->
        existsb is_spawn
          (w_trace (snd (respond (analyze spawn (PostChainsaw r)) (boot m cwd)))) = true).
Proof.
  intros H.
  specialize (H tool_ok (mkAnalysisRequest "evtx1.evtx") demo_fs "/app").
  vm_compute in H.
  specialize (H eq_refl eq_refl eq_refl). discriminate H.
Qed.

(** C4, amended.  A Chainsaw request that passes validation gets status
    200; [command_run] is the vector
    [<bin> hunt -f <logPath> --json -o <outputJsonPath> --no-banner] joined
    by spaces, [stdout] says that nothing was executed and [stderr] is
    absent.  The handler only looked at the binary and the log file: no
    process is started and the file system is unchanged. *)
Theorem chainsaw_builds_command_only (spawn : list string -> string -> Fs.fs -> completed)
    (r : AnalysisRequest) (m : Fs.fs) (cwd : string) :
  Fs.exists_ m cwd CHAINSAW_PATH = true ->
  PyStr.contains ".." (log_file r) = false ->
  Fs.isfile m cwd (OsPath.join DATA_DIR (log_file r)) = true ->
  let log_path := OsPath.join DATA_DIR (log_file r) in
  let output_json := OsPath.join RESULTS_DIR (log_file r +:+ "-chainsaw-report.json") in
  respond (analyze spawn (PostChainsaw r)) (boot m cwd)
  = (Http200
       (mkAnalysisResponse
          ("Chainsaw analysis STUB executed for " +:+ log_file r)
          output_json
          "Chainsaw"
          (Some "This is a stub. Chainsaw was not actually executed.")
          None
          (PyStr.join " "
             [CHAINSAW_PATH; "hunt"; "-f"; log_path; "--json"; "-o"; output_json;
              "--no-banner"])
          None),
     mkWorld m cwd [EvStat CHAINSAW_PATH; EvStat log_path]).
Proof.
  intros Hbin Hdots Hfile log_path output_json.
  subst log_path output_json. destruct r as [name].
  run_handler_in Hdots. run_handler_in Hfile. run_handler.
  rewrite Hbin. run_handler. rewrite Hdots. run_handler.
  rewrite Hfile. reflexivity.
Qed.

Lemma chainsaw_builds_command_only_witness :
  respond (analyze tool_fails (PostChainsaw (mkAnalysisRequest "evtx1.evtx")))
    (boot demo_fs "/app")
  = (Http200
       (mkAnalysisResponse
          "Chainsaw analysis STUB executed for evtx1.evtx"
          "/data/results/evtx1.evtx-chainsaw-report.json"
          "Chainsaw"
          (Some "This is a stub. Chainsaw was not actually executed.")
          None
          "/tools/chainsaw/chainsaw hunt -f /data/evtx1.evtx --json -o /data/results/evtx1.evtx-chainsaw-report.json --no-banner"
          None),
     mkWorld demo_fs "/app" [EvStat "/tools/chainsaw/chainsaw"; EvStat "/data/evtx1.evtx"]).
Proof.
  apply (chainsaw_builds_command_only tool_fails (mkAnalysisRequest "evtx1.evtx")
           demo_fs "/app"); vm_compute; reflexivity.
Defined.

(** ** Facts about the textual functions and the file system *)

(** [replace] leaves a string without the pattern as it is *)
Lemma replace_absent (old new s : string) :
  PyStr.contains old s = false -> PyStr.replace s old new = s.
Proof.
  unfold PyStr.replace.
  induction s as [| c s IH]; intros H.
  - reflexivity.
  - cbn [PyStr.contains] in H. apply orb_false_iff in H as [Hhere Hlater].
    cbn [PyStr.replace_from]. rewrite Hhere, (IH Hlater). reflexivity.
Qed.

Lemma isfile_inv (m : Fs.fs) (cwd path : string) :
  Fs.isfile m cwd path = true ->
  exists k content,
    Fs.namei m cwd path = Some k /\ Fs.node_at m k = Some (Fs.File content).
Proof.
  unfold Fs.isfile, Fs.stat. intros H.
  destruct (Fs.namei m cwd path) as [k |]; [| discriminate].
  destruct (Fs.node_at m k) as [[content |] |] eqn:Hk; try discriminate.
  exists k, content. split; [reflexivity | exact Hk].
Qed.

Lemma isfile_exists (m : Fs.fs) (cwd path : string) :
  Fs.isfile m cwd path = true -> Fs.exists_ m cwd path = true.
Proof.
  unfold Fs.isfile, Fs.exists_. destruct (Fs.stat m cwd path) as [[|] |]; auto.
Qed.

(** ** POST /analyze/takajo on an input without the report suffix *)

(** C9, as stated, fails for an existing file whose name contains [..]:
    the validation answers 404 before any cleanup. *)
Lemma takajo_dotted_input_is_404 :
  ~ (forall spawn r m cwd,
        Fs.isfile m cwd (hayabusa_report_file r) = true ->
        PyStr.contains "-hayabusa-report.jsonl" (hayabusa_report_file r) = false ->
        status (fst (respond (analyze spawn (PostTakajo r)) (boot m cwd))) = 500).
Proof.
  intros H.
  specialize (H tool_ok (mkTakajoRequest "/data/results/report..old.jsonl")
                demo_fs "/app").
  vm_compute in H. specialize (H eq_refl eq_refl). discriminate H.
Qed.

(** C9, amended.  Let [report_path] be the absolute path of
    [hayabusa_report_file].  When the Takajo binary is present and
    [report_path] names an existing file and contains neither [..] nor
    ["-hayabusa-report.jsonl"], the output directory is [report_path]
    itself; the handler calls [rmtree] on it, which fails on a regular
    file, and answers 500.  The binary is not started and the file system,
    the input file included, is unchanged. *)
Theorem takajo_unsuffixed_input_fails_cleanup
    (spawn : list string -> string -> Fs.fs -> completed)
    (r : TakajoRequest) (m : Fs.fs) (cwd : string) :
  let report_path := OsPath.abspath cwd (hayabusa_report_file r) in
  Fs.exists_ m cwd TAKAJO_PATH = true ->
  PyStr.contains ".." report_path = false ->
  Fs.isfile m cwd report_path = true ->
  PyStr.contains "-hayabusa-report.jsonl" report_path = false ->
  declared_output cwd (PostTakajo r) = report_path
  /\ exists why,
      respond (analyze spawn (PostTakajo r)) (boot m cwd)
      = (HttpError 500
           (DetailText ("Failed to remove old analysis directory: " +:+ why)),
         mkWorld m cwd
           [EvStat TAKAJO_PATH; EvStat report_path; EvStat report_path;
            EvRmtree report_path]).
Proof.
  intros report_path Hbin Hdots Hfile Hsuffix.
  destruct r as [name]. subst report_path. run_handler_in Hdots.
  run_handler_in Hfile. run_handler_in Hsuffix.
  set (report_path := OsPath.abspath cwd name) in *.
  pose proof (isfile_exists _ _ _ Hfile) as Hexists.
  destruct (isfile_inv _ _ _ Hfile) as (k & content & Hk & Hnode).
  run_handler. fold report_path.
  rewrite (replace_absent _ _ _ Hsuffix).
  split; [reflexivity |].
  rewrite Hbin. run_handler. rewrite Hdots. run_handler.
  rewrite Hfile. run_handler. rewrite Hexists. run_handler.
  rewrite Hk. run_handler. rewrite Hnode. run_handler.
  eexists. reflexivity.
Qed.

Lemma takajo_unsuffixed_input_fails_cleanup_witness :
  exists why,
    respond (analyze tool_ok (PostTakajo (mkTakajoRequest "/data/results/notes.txt")))
      (boot demo_fs "/app")
    = (HttpError 500
         (DetailText ("Failed to remove old analysis directory: " +:+ why)),
       mkWorld demo_fs "/app"
         [EvStat "/tools/takajo/takajo"; EvStat "/data/results/notes.txt";
          EvStat "/data/results/notes.txt"; EvRmtree "/data/results/notes.txt"]).
Proof.
  apply (takajo_unsuffixed_input_fails_cleanup tool_ok
           (mkTakajoRequest "/data/results/notes.txt") demo_fs "/app");
    vm_compute; reflexivity.
Defined.

(** ** Case analysis along a handler *)

Ltac branch :=
  match goal with
  | |- context [if Fs.exists_ ?a ?b ?c then _ else _] =>
      destruct (Fs.exists_ a b c) eqn:?
  | |- context [if Fs.isfile ?a ?b ?c then _ else _] =>
      destruct (Fs.isfile a b c) eqn:?
  | |- context [if Fs.isdir ?a ?b ?c then _ else _] =>
      destruct (Fs.isdir a b c) eqn:?
  | |- context [if PyStr.contains ?a ?b then _ else _] =>
      destruct (PyStr.contains a b) eqn:?
  | |- context [match Fs.namei ?a ?b ?c with _ => _ end] =>
      destruct (Fs.namei a b c) as [? |] eqn:?
  | |- context [match Fs.node_at ?a ?b with _ => _ end] =>
      destruct (Fs.node_at a b) as [[? |] |] eqn:?
  | |- context [match ?s with
                | Exited _ _ _ _ => _ | Undecodable _ _ => _ | NotStarted _ => _
                end] =>
      destruct s as [? ? ? ? | ? ? | ?] eqn:?
  | |- context [if Z.eqb ?a ?b then _ else _] =>
      destruct (Z.eqb a b) eqn:?
  | |- context [match ?k with [] => _ | _ :: _ => _ end] =>
      is_var k; destruct k
  end; run_handler.

Ltac in_trace H :=
  cbn [In] in H;
  repeat match type of H with
         | _ \/ _ => destruct H as [H | H]
         | False => destruct H
         | _ = _ => first [discriminate H | injection H as ? ? ?; subst]
         end.

(** ** Failure of the external binary *)




(** ** The file system after a removal *)

Lemma is_dir_key_delete (m : Fs.fs) (k cur : list string) :
  cur <> k -> Fs.is_dir_key (delete k m) cur = Fs.is_dir_key m cur.
Proof.
  intros Hne. unfold Fs.is_dir_key, Fs.node_at.
  destruct cur; [reflexivity |]. rewrite lookup_delete_ne; [reflexivity | congruence].
Qed.

Lemma walk_delete (m : Fs.fs) (k : list string) (content : string) (comps : list string) :
  k <> [] ->
  m !! k = Some (Fs.File content) ->
  forall cur,
    Fs.walk m cur comps = Some k ->
    Fs.walk (delete k m) cur comps = None \/ Fs.walk (delete k m) cur comps = Some k.
Proof.
  intros Hroot Hk. induction comps as [| c rest IH]; intros cur Hwalk.
  - right. exact Hwalk.
  - cbn [Fs.walk] in Hwalk |- *.
    destruct (Fs.is_dir_key m cur) eqn:Hdir; [| discriminate].
    assert (cur <> k) as Hne.
    { intros ->. unfold Fs.is_dir_key, Fs.node_at in Hdir.
      destruct k; [congruence | rewrite Hk in Hdir; discriminate]. }
    rewrite (is_dir_key_delete _ _ _ Hne), Hdir.
    destruct (String.eqb c "" || String.eqb c "."); [auto |].
    destruct (String.eqb c ".."); [auto |].
    destruct (m !! (cur ++ [c])) eqn:Hnext; [| discriminate].
    destruct (decide (cur ++ [c] = k)) as [-> | Hother].
    + rewrite lookup_delete_eq. left. reflexivity.
    + rewrite lookup_delete_ne, Hnext by congruence. auto.
Qed.

(** once [os.remove] has unlinked the file a path names, the path names
    nothing *)
Lemma exists_after_remove (m : Fs.fs) (cwd path : string) (k : list string) (content : string) :
  Fs.namei m cwd path = Some k ->
  Fs.node_at m k = Some (Fs.File content) ->
  Fs.exists_ (delete k m) cwd path = false.
Proof.
  intros Hnamei Hnode.
  assert (k <> []) as Hroot by (intros ->; discriminate).
  assert (m !! k = Some (Fs.File content)) as Hk by (destruct k; [congruence | exact Hnode]).
  unfold Fs.exists_, Fs.stat, Fs.namei in *.
  destruct (negb (PyStr.truthy path) || Fs.has_nul path); [discriminate |].
  destruct (walk_delete _ _ _ _ Hroot Hk _ Hnamei) as [-> | ->]; [reflexivity |].
  unfold Fs.node_at. destruct k; [congruence |]. rewrite lookup_delete_eq. reflexivity.
Qed.

Lemma lookup_prune (p q : list string) (m : Fs.fs) :
  Fs.prune p m !! q = if Fs.below p q then None else m !! q.
Proof.
  unfold Fs.prune. destruct (Fs.below p q) eqn:Hb.
  - apply map_lookup_filter_None_2. right. intros x _. cbn. congruence.
  - destruct (m !! q) as [x |] eqn:Hq.
    + apply map_lookup_filter_Some_2; [exact Hq | exact Hb].
    + apply map_lookup_filter_None_2. left. exact Hq.
Qed.

Lemma below_refl (p : list string) : Fs.below p p = true.
Proof. unfold Fs.below. apply bool_decide_eq_true_2. reflexivity. Qed.

Lemma is_dir_key_prune (m : Fs.fs) (p cur : list string) :
  Fs.below p cur = false -> Fs.is_dir_key (Fs.prune p m) cur = Fs.is_dir_key m cur.
Proof.
  intros Hb. unfold Fs.is_dir_key, Fs.node_at.
  destruct cur; [reflexivity |]. rewrite lookup_prune, Hb. reflexivity.
Qed.

Lemma is_dir_key_pruned (m : Fs.fs) (p cur : list string) :
  p <> [] -> Fs.below p cur = true -> Fs.is_dir_key (Fs.prune p m) cur = false.
Proof.
  intros Hp Hb. unfold Fs.is_dir_key, Fs.node_at.
  destruct cur.
  - unfold Fs.below in Hb. apply bool_decide_eq_true_1 in Hb.
    apply prefix_nil_inv in Hb. contradiction.
  - rewrite lookup_prune, Hb. reflexivity.
Qed.

Lemma walk_prune (m : Fs.fs) (p : list string) (comps : list string) :
  p <> [] ->
  forall cur,
    Fs.walk m cur comps = Some p ->
    Fs.walk (Fs.prune p m) cur comps = None
    \/ exists q, Fs.walk (Fs.prune p m) cur comps = Some q /\ Fs.below p q = true.
Proof.
  intros Hp. induction comps as [| c rest IH]; intros cur Hwalk.
  - right. exists p. split; [exact Hwalk | apply below_refl].
  - cbn [Fs.walk] in Hwalk |- *.
    destruct (Fs.is_dir_key m cur) eqn:Hdir; [| discriminate].
    destruct (Fs.below p cur) eqn:Hb.
    { rewrite (is_dir_key_pruned _ _ _ Hp Hb). left. reflexivity. }
    rewrite (is_dir_key_prune _ _ _ Hb), Hdir.
    destruct (String.eqb c "" || String.eqb c "."); [auto |].
    destruct (String.eqb c ".."); [auto |].
    destruct (m !! (cur ++ [c])) eqn:Hnext; [| discriminate].
    rewrite lookup_prune.
    destruct (Fs.below p (cur ++ [c])); [left; reflexivity |].
    rewrite Hnext. auto.
Qed.

(** once [shutil.rmtree] has removed the directory a path names, the path
    names nothing *)
Lemma exists_after_rmtree (m : Fs.fs) (cwd path : string) (k : list string) :
  k <> [] ->
  Fs.namei m cwd path = Some k ->
  Fs.exists_ (Fs.prune k m) cwd path = false.
Proof.
  intros Hroot Hnamei.
  unfold Fs.exists_, Fs.stat, Fs.namei in *.
  destruct (negb (PyStr.truthy path) || Fs.has_nul path); [discriminate |].
  destruct (walk_prune _ _ _ Hroot _ Hnamei) as [-> | (q & -> & Hq)]; [reflexivity |].
  unfold Fs.node_at. destruct q.
  - unfold Fs.below in Hq. apply bool_decide_eq_true_1 in Hq.
    apply prefix_nil_inv in Hq. contradiction.
  - rewrite lookup_prune, Hq. reflexivity.
Qed.

(** ** Cleaning before a run *)

Ltac clean_output :=
  first [ assumption
        | eapply exists_after_remove; eassumption
        | eapply exists_after_rmtree; [discriminate | eassumption] ].

(** whenever a handler starts a process, nothing exists at the declared
    output location, which is among the arguments *)
Lemma spawn_sees_clean_output (spawn : list string -> string -> Fs.fs -> completed)
    (c : api_call) (m : Fs.fs) (cwd : string)
    (cmd : list string) (dir : string) (before : Fs.fs) :
  In (EvSpawn cmd dir before) (w_trace (snd (respond (analyze spawn c) (boot m cwd)))) ->
  Fs.exists_ before cwd (declared_output cwd c) = false
  /\ In (declared_output cwd c) cmd.
Proof.
  destruct c as [[name] | [name kw] | [name] | [name]];
    run_handler; repeat branch; intros Hin; in_trace Hin;
    (split; [clean_output | cbn [In]; tauto]).
Qed.

Ltac unfold_vocabulary H :=
  cbv beta iota zeta delta
    [validated input_path guarded_name binary_of declared_output remover runs_tool
     log_file search_log_file keyword hayabusa_report_file] in H.

(** a removal that raises ends the request with status 500 before any
    process is started *)
Lemma failed_removal_is_reported (spawn : list string -> string -> Fs.fs -> completed)
    (c : api_call) (m : Fs.fs) (cwd : string) (e : pyexn) :
  runs_tool c = true ->
  validated m cwd c = true ->
  Fs.exists_ m cwd (declared_output cwd c) = true ->
  fst (remover c (declared_output cwd c) (boot m cwd)) = Raise e ->
  status (fst (respond (analyze spawn c) (boot m cwd))) = 500
  /\ existsb is_spawn (w_trace (snd (respond (analyze spawn c) (boot m cwd)))) = false.
Proof.
  intros Hruns Hvalid Hstale Hfail.
  destruct c as [[name] | [name kw] | [name] | [name]]; try discriminate Hruns;
    unfold_vocabulary Hvalid; unfold_vocabulary Hstale; unfold_vocabulary Hfail;
    apply andb_true_iff in Hvalid as [Hvalid Hfile];
    apply andb_true_iff in Hvalid as [Hbin Hdots];
    apply negb_true_iff in Hdots;
    run_handler_in Hfail; run_handler;
    rewrite Hbin; run_handler; rewrite Hdots; run_handler;
    rewrite Hfile; run_handler; rewrite Hstale; run_handler;
    revert Hfail; repeat branch; intros Hfail; try discriminate Hfail;
    repeat split.
Qed.

(** a successful answer comes from one successful process, started on a
    file system with nothing at the output location, and the disk is as
    that process left it *)
Lemma completed_run_starts_clean (spawn : list string -> string -> Fs.fs -> completed)
    (c : api_call) (m : Fs.fs) (cwd : string) (body : AnalysisResponse) :
  runs_tool c = true ->
  fst (respond (analyze spawn c) (boot m cwd)) = Http200 body ->
  exists cmd dir before out err after,
    In (EvSpawn cmd dir before) (w_trace (snd (respond (analyze spawn c) (boot m cwd))))
    /\ spawn cmd dir before = Exited 0 out err after
    /\ Fs.exists_ before cwd (declared_output cwd c) = false
    /\ w_fs (snd (respond (analyze spawn c) (boot m cwd))) = after.
Proof.
  intros Hruns.
  destruct c as [[name] | [name kw] | [name] | [name]]; try discriminate Hruns;
    run_handler; repeat branch; intros Hok; try discriminate Hok;
    match goal with
    | Hz : Z.eqb _ 0 = true |- _ => apply Z.eqb_eq in Hz; subst
    end;
    do 6 eexists;
    (split; [cbn [In]; repeat (first [left; reflexivity | right]) |]);
    (split; [eassumption |]);
    (split; [clean_output | reflexivity]).
Qed.

Ltac unfold_run H :=
  cbv beta iota zeta delta
    [validated input_path guarded_name binary_of declared_output remover runs_tool
     tool_dir command_of
     log_file search_log_file keyword hayabusa_report_file] in H.

Ltac unfold_run_goal :=
  cbv beta iota zeta delta
    [validated input_path guarded_name binary_of declared_output remover runs_tool
     tool_dir command_of
     log_file search_log_file keyword hayabusa_report_file].

Ltac find_event :=
  cbn [In]; repeat (first [left; reflexivity | right]).

(** a validated call with nothing at its output location removes nothing
    and starts the tool on the file system as it is *)
Lemma absent_output_run_is_started (spawn : list string -> string -> Fs.fs -> completed)
    (c : api_call) (m : Fs.fs) (cwd : string) :
  runs_tool c = true ->
  validated m cwd c = true ->
  Fs.exists_ m cwd (declared_output cwd c) = false ->
  In (EvSpawn (command_of cwd c) (tool_dir c) m)
    (w_trace (snd (respond (analyze spawn c) (boot m cwd))))
  /\ removed_paths (w_trace (snd (respond (analyze spawn c) (boot m cwd)))) = [].
Proof.
  intros Hruns Hvalid Hstale.
  destruct c as [[name] | [name kw] | [name] | [name]]; try discriminate Hruns;
    unfold_run Hvalid; unfold_run Hstale; unfold_run_goal;
    apply andb_true_iff in Hvalid as [Hvalid Hfile];
    apply andb_true_iff in Hvalid as [Hbin Hdots];
    apply negb_true_iff in Hdots;
    run_handler;
    rewrite Hbin; run_handler; rewrite Hdots; run_handler;
    rewrite Hfile; run_handler; rewrite Hstale; run_handler;
    repeat branch; (split; [find_event | reflexivity]).
Qed.

(** a validated call whose stale output can be removed removes it, that
    and nothing else, and then starts the tool on the file system the
    removal left *)
Lemma removable_output_is_removed (spawn : list string -> string -> Fs.fs -> completed)
    (c : api_call) (m : Fs.fs) (cwd : string) (cleaned : world) :
  runs_tool c = true ->
  validated m cwd c = true ->
  Fs.exists_ m cwd (declared_output cwd c) = true ->
  remover c (declared_output cwd c) (boot m cwd) = (Ret tt, cleaned) ->
  In (EvSpawn (command_of cwd c) (tool_dir c) (w_fs cleaned))
    (w_trace (snd (respond (analyze spawn c) (boot m cwd))))
  /\ removed_paths (w_trace (snd (respond (analyze spawn c) (boot m cwd))))
     = [declared_output cwd c].
Proof.
  intros Hruns Hvalid Hstale Hclean.
  destruct c as [[name] | [name kw] | [name] | [name]]; try discriminate Hruns;
    unfold_run Hvalid; unfold_run Hstale; unfold_run Hclean; unfold_run_goal;
    apply andb_true_iff in Hvalid as [Hvalid Hfile];
    apply andb_true_iff in Hvalid as [Hbin Hdots];
    apply negb_true_iff in Hdots;
    run_handler_in Hclean; run_handler;
    rewrite Hbin; run_handler; rewrite Hdots; run_handler;
    rewrite Hfile; run_handler; rewrite Hstale; run_handler;
    revert Hclean; repeat branch; intros Hclean; try discriminate Hclean;
    injection Hclean as <-; (split; [find_event | reflexivity]).
Qed.

(** C5.  For a call whose handler runs a tool (Hayabusa timeline, Hayabusa
    search, Takajo):
    - whenever the binary is started, the file system it starts on has
      nothing at the declared output location, and that location is among
      its arguments;
    - if the call passes validation and a stale output exists that the
      removal of the handler ([os.remove], or [shutil.rmtree] for Takajo)
      removes, then that removal is the only one of the request and the
      binary is started on the file system the removal left;
    - if the call passes validation and nothing exists at the output
      location, nothing is removed and the binary is started on the file
      system as it is;
    - if a stale output exists and its removal raises, the answer is status
      500 and the binary is not started;
    - if the call succeeds, the files on disk afterwards are exactly what
      the successful process left, starting from a file system with nothing
      at the output location. *)
Theorem stale_output_removed_before_run
    (spawn : list string -> string -> Fs.fs -> completed)
    (c : api_call) (m : Fs.fs) (cwd : string) :
  runs_tool c = true ->
  let run := respond (analyze spawn c) (boot m cwd) in
  let output := declared_output cwd c in
  (forall cmd dir before,
      In (EvSpawn cmd dir before) (w_trace (snd run)) ->
      Fs.exists_ before cwd output = false /\ In output cmd)
  /\ (forall cleaned,
        validated m cwd c = true ->
        Fs.exists_ m cwd output = true ->
        remover c output (boot m cwd) = (Ret tt, cleaned) ->
        In (EvSpawn (command_of cwd c) (tool_dir c) (w_fs cleaned)) (w_trace (snd run))
        /\ removed_paths (w_trace (snd run)) = [output])
  /\ (validated m cwd c = true ->
      Fs.exists_ m cwd output = false ->
      In (EvSpawn (command_of cwd c) (tool_dir c) m) (w_trace (snd run))
      /\ removed_paths (w_trace (snd run)) = [])
  /\ (forall e,
        validated m cwd c = true ->
        Fs.exists_ m cwd output = true ->
        fst (remover c output (boot m cwd)) = Raise e ->
        status (fst run) = 500 /\ existsb is_spawn (w_trace (snd run)) = false)
  /\ (forall body,
        fst run = Http200 body ->
        exists cmd dir before out err after,
          In (EvSpawn cmd dir before) (w_trace (snd run))
          /\ spawn cmd dir before = Exited 0 out err after
          /\ Fs.exists_ before cwd output = false
          /\ w_fs (snd run) = after).
Proof.
  intros Hruns run output. subst run output.
  split; [| split; [| split; [| split]]].
  - intros cmd dir before. apply spawn_sees_clean_output.
  - intros cleaned. apply removable_output_is_removed. exact Hruns.
  - apply absent_output_run_is_started. exact Hruns.
  - intros e. apply failed_removal_is_reported. exact Hruns.
  - intros body. apply completed_run_starts_clean. exact Hruns.
Qed.

Lemma stale_output_removed_before_run_witness :
  let takajo :=
    respond (analyze tool_ok
               (PostTakajo (mkTakajoRequest
                  "/data/results/evtx1.evtx-hayabusa-report.jsonl")))
      (boot demo_fs "/app") in
  let blocked :=
    respond (analyze tool_ok (PostHayabusa (mkAnalysisRequest "blocked.evtx")))
      (boot demo_fs "/app") in
  let timeline :=
    respond (analyze tool_ok (PostHayabusa (mkAnalysisRequest "evtx1.evtx")))
      (boot demo_fs "/app") in
  let search :=
    respond (analyze tool_ok
               (PostHayabusaSearch (mkHayabusaSearchRequest "evtx1.evtx" "mimikatz")))
      (boot demo_fs "/app") in
  (Fs.exists_ demo_fs "/app" "/data/results/evtx1.evtx-takajo-analysis" = true
   /\ forall cmd dir before,
       In (EvSpawn cmd dir before) (w_trace (snd takajo)) ->
       Fs.exists_ before "/app" "/data/results/evtx1.evtx-takajo-analysis" = false
       /\ In "/data/results/evtx1.evtx-takajo-analysis" cmd)
  /\ (Fs.isdir demo_fs "/app" "/data/results/blocked.evtx-hayabusa-report.jsonl" = true
      /\ status (fst blocked) = 500
      /\ existsb is_spawn (w_trace (snd blocked)) = false)
  /\ (exists cmd dir before out err after,
         In (EvSpawn cmd dir before) (w_trace (snd takajo))
         /\ tool_ok cmd dir before = Exited 0 out err after
         /\ Fs.exists_ before "/app" "/data/results/evtx1.evtx-takajo-analysis" = false
         /\ w_fs (snd takajo) = after)
  /\ (Fs.isfile demo_fs "/app" "/data/results/evtx1.evtx-hayabusa-report.jsonl" = true
      /\ In (EvSpawn
               [HAYABUSA_PATH; "json-timeline"; "-f"; "/data/evtx1.evtx"; "-o";
                "/data/results/evtx1.evtx-hayabusa-report.jsonl"; "-L"; "--no-wizard"]
               HAYABUSA_DIR
               (delete ["data"; "results"; "evtx1.evtx-hayabusa-report.jsonl"] demo_fs))
            (w_trace (snd timeline))
      /\ removed_paths (w_trace (snd timeline))
         = ["/data/results/evtx1.evtx-hayabusa-report.jsonl"])
  /\ (Fs.exists_ demo_fs "/app" "/data/results/evtx1.evtx-search-mimikatz.csv" = false
      /\ In (EvSpawn
               [HAYABUSA_PATH; "search"; "-f"; "/data/evtx1.evtx"; "-k"; "mimikatz"; "-o";
                "/data/results/evtx1.evtx-search-mimikatz.csv"]
               HAYABUSA_DIR demo_fs)
            (w_trace (snd search))
      /\ removed_paths (w_trace (snd search)) = []).
Proof.
  intros takajo blocked timeline search. subst takajo blocked timeline search.
  pose proof (stale_output_removed_before_run tool_ok
                (PostTakajo (mkTakajoRequest
                   "/data/results/evtx1.evtx-hayabusa-report.jsonl"))
                demo_fs "/app" eq_refl) as (Hclean & _ & _ & _ & Hdone).
  pose proof (stale_output_removed_before_run tool_ok
                (PostHayabusa (mkAnalysisRequest "blocked.evtx"))
                demo_fs "/app" eq_refl) as (_ & _ & _ & Hfail & _).
  pose proof (stale_output_removed_before_run tool_ok
                (PostHayabusa (mkAnalysisRequest "evtx1.evtx"))
                demo_fs "/app" eq_refl) as (_ & Hremoved & _).
  pose proof (stale_output_removed_before_run tool_ok
                (PostHayabusaSearch (mkHayabusaSearchRequest "evtx1.evtx" "mimikatz"))
                demo_fs "/app" eq_refl) as (_ & _ & Habsent & _).
  split; [split; [vm_compute; reflexivity | exact Hclean] |].
  split; [| split; [| split]].
  - split; [vm_compute; reflexivity |].
    apply (Hfail (OSError "[Errno 21] Is a directory: '/data/results/blocked.evtx-hayabusa-report.jsonl'"));
      vm_compute; reflexivity.
  - apply (Hdone
             (mkAnalysisResponse
                "Takajo 'automagic' analysis complete for /data/results/evtx1.evtx-hayabusa-report.jsonl"
                "/data/results/evtx1.evtx-takajo-analysis"
                "Takajo" (Some "done") (Some "")
                "/tools/takajo/takajo automagic -t /data/results/evtx1.evtx-hayabusa-report.jsonl -o /data/results/evtx1.evtx-takajo-analysis"
                (Some []))).
    vm_compute. reflexivity.
  - split; [vm_compute; reflexivity |].
    refine (Hremoved
              (mkWorld (delete ["data"; "results"; "evtx1.evtx-hayabusa-report.jsonl"] demo_fs)
                 "/app" [EvUnlink "/data/results/evtx1.evtx-hayabusa-report.jsonl"]) _ _ _);
      [vm_compute; reflexivity | vm_compute; reflexivity | reflexivity].
  - split; [vm_compute; reflexivity |].
    refine (Habsent _ _); vm_compute; reflexivity.
Defined.

(** ** The declared output location *)

(** joining a name that does not start with a slash keeps the results
    root in front *)
Lemma join_results_relative (l suffix : string) :
  PyStr.startswith l "/" = false ->
  PyStr.startswith suffix "/" = false ->
  OsPath.join RESULTS_DIR (l +:+ suffix) = "/data/results/" +:+ l +:+ suffix.
Proof.
  intros Hl Hs. unfold OsPath.join.
  assert (PyStr.startswith (l +:+ suffix) "/" = false) as ->.
  { destruct l as [| a l]; [exact Hs |].
    simpl in Hl |- *.
    destruct (Ascii.eqb a "/"); [discriminate Hl | reflexivity]. }
  reflexivity.
Qed.

(** the reported output location of an accepted request *)
Lemma accepted_output (spawn : list string -> string -> Fs.fs -> completed)
    (c : api_call) (m : Fs.fs) (cwd : string) (body : AnalysisResponse) :
  fst (respond (analyze spawn c) (boot m cwd)) = Http200 body ->
  output_location body = declared_output cwd c.
Proof.
  destruct c as [[name] | [name kw] | [name] | [name]];
    run_handler; repeat branch; intros Hok; try discriminate Hok;
    injection Hok as <-; reflexivity.
Qed.

(** the reported command of an accepted timeline request *)
Lemma accepted_hayabusa_command (spawn : list string -> string -> Fs.fs -> completed)
    (r : AnalysisRequest) (m : Fs.fs) (cwd : string) (body : AnalysisResponse) :
  fst (respond (analyze spawn (PostHayabusa r)) (boot m cwd)) = Http200 body ->
  command_run body
  = PyStr.join " "
      [HAYABUSA_PATH; "json-timeline"; "-f"; OsPath.join DATA_DIR (log_file r); "-o";
       output_location body; "-L"; "--no-wizard"].
Proof.
  destruct r as [name];
    run_handler; repeat branch; intros Hok; try discriminate Hok;
    injection Hok as <-; reflexivity.
Qed.

(** C8, as stated, fails in both of its formulas.  For Takajo the
    replacement is made in the absolute, normalised form of the input path,
    not in the input path as given.  For the Hayabusa timeline an absolute
    [log_file] is accepted and replaces the results root in the join. *)
Lemma output_location_is_not_textual :
  ~ (forall spawn r m cwd body,
        fst (respond (analyze spawn (PostTakajo r)) (boot m cwd)) = Http200 body ->
        output_location body
        = PyStr.replace (hayabusa_report_file r)
            "-hayabusa-report.jsonl" "-takajo-analysis")
  /\ ~ (forall spawn r m cwd body,
          fst (respond (analyze spawn (PostHayabusa r)) (boot m cwd)) = Http200 body ->
          output_location body
          = "/data/results/" +:+ log_file r +:+ "-hayabusa-report.jsonl").
Proof.
  split; intros H.
  - pose proof (H tool_ok
                  (mkTakajoRequest "/data/results/./evtx1.evtx-hayabusa-report.jsonl")
                  demo_fs "/app") as H'.
    vm_compute in H'. specialize (H' _ eq_refl). discriminate H'.
  - pose proof (H tool_ok (mkAnalysisRequest "/etc/passwd") demo_fs "/app") as H'.
    vm_compute in H'. specialize (H' _ eq_refl). discriminate H'.
Qed.

(** C8, amended.  For every accepted request the output location is the
    value of [declared_output], a function of the call and of the working
    directory of the server only, so two accepted requests with the same
    input give the same location.  For the Hayabusa timeline [command_run]
    is the constructed vector joined by spaces, and when [log_file] does
    not start with a slash the location is
    [/data/results/<log_file>-hayabusa-report.jsonl].  For Takajo the
    location is the absolute path of the input with every occurrence of
    ["-hayabusa-report.jsonl"] replaced by ["-takajo-analysis"]. *)
Theorem output_location_is_determined
    (spawn : list string -> string -> Fs.fs -> completed)
    (c : api_call) (m : Fs.fs) (cwd : string) (body : AnalysisResponse) :
  fst (respond (analyze spawn c) (boot m cwd)) = Http200 body ->
  output_location body = declared_output cwd c
  /\ (forall r, c = PostHayabusa r ->
        command_run body
        = PyStr.join " "
            [HAYABUSA_PATH; "json-timeline"; "-f"; OsPath.join DATA_DIR (log_file r);
             "-o"; output_location body; "-L"; "--no-wizard"]
        /\ (PyStr.startswith (log_file r) "/" = false ->
            output_location body
            = "/data/results/" +:+ log_file r +:+ "-hayabusa-report.jsonl"))
  /\ (forall r, c = PostTakajo r ->
        output_location body
        = PyStr.replace (OsPath.abspath cwd (hayabusa_report_file r))
            "-hayabusa-report.jsonl" "-takajo-analysis")
  /\ (forall spawn' m' body',
        fst (respond (analyze spawn' c) (boot m' cwd)) = Http200 body' ->
        output_location body' = output_location body).
Proof.
  intros Hok. pose proof (accepted_output _ _ _ _ _ Hok) as Hout.
  split; [exact Hout |]. split; [| split].
  - intros r ->. split.
    + apply (accepted_hayabusa_command _ _ _ _ _ Hok).
    + intros Hrel. rewrite Hout. cbn [declared_output].
      apply join_results_relative; [exact Hrel | reflexivity].
  - intros r ->. exact Hout.
  - intros spawn' m' body' Hok'.
    rewrite Hout. apply (accepted_output _ _ _ _ _ Hok').
Qed.

Lemma output_location_is_determined_witness :
  output_location
    (mkAnalysisResponse
       "Hayabusa analysis complete for evtx1.evtx"
       "/data/results/evtx1.evtx-hayabusa-report.jsonl"
       "Hayabusa" (Some "done") (Some "")
       "/tools/hayabusa/hayabusa json-timeline -f /data/evtx1.evtx -o /data/results/evtx1.evtx-hayabusa-report.jsonl -L --no-wizard"
       None)
  = declared_output "/app" (PostHayabusa (mkAnalysisRequest "evtx1.evtx")).
Proof.
  refine (proj1 (output_location_is_determined tool_ok
                   (PostHayabusa (mkAnalysisRequest "evtx1.evtx")) demo_fs "/app" _ _)).
  vm_compute. reflexivity.
Defined.

(** ** Decoding JSON Lines *)

Section Jsonl.

Variable json : Type.
Variable json_loads : string -> option json.

(** the loop appends the decoded values of the non-blank lines to what it
    was given, in order *)
Lemma decode_lines_all_valid (lines : list string) :
  (forall l, In l (List.filter nonblank lines) -> exists v, json_loads l = Some v) ->
  forall acc,
  exists values,
    decode_lines json json_loads lines acc = Ret (acc ++ values)
    /\ map Some values = map json_loads (List.filter nonblank lines).
Proof.
  induction lines as [| line rest IH]; intros Hvalid acc.
  - exists []. split; [cbn; rewrite app_nil_r; reflexivity | reflexivity].
  - cbn [decode_lines List.filter] in *. fold (nonblank line) in *.
    destruct (nonblank line) eqn:Hline.
    + destruct (Hvalid line (or_introl eq_refl)) as [v Hv]. rewrite Hv.
      destruct (IH (fun l Hl => Hvalid l (or_intror Hl)) (acc ++ [v]))
        as (values & Hrun & Hmap).
      exists (v :: values). split.
      * rewrite Hrun, <- app_assoc. reflexivity.
      * cbn [map]. rewrite Hv, Hmap. reflexivity.
    + apply IH. exact Hvalid.
Qed.

(** one malformed non-blank line makes the loop raise, whatever was
    decoded before it *)
Lemma decode_lines_malformed (lines : list string) :
  (exists l, In l (List.filter nonblank lines) /\ json_loads l = None) ->
  forall acc, exists e, decode_lines json json_loads lines acc = Raise e.
Proof.
  induction lines as [| line rest IH]; intros (l & Hin & Hbad) acc.
  - destruct Hin.
  - cbn [decode_lines List.filter] in *. fold (nonblank line) in *.
    destruct (nonblank line) eqn:Hline.
    + destruct (json_loads line) as [v |] eqn:Hv.
      * apply IH. exists l. split; [| exact Hbad].
        destruct Hin as [-> | Hin]; [congruence | exact Hin].
      * eexists. reflexivity.
    + apply IH. exists l. split; assumption.
Qed.

(** C7.  Let [rows] be the non-blank lines of a file, in order.  If every
    row is valid JSON, decoding returns exactly one value per row, the
    i-th value being the decoding of the i-th row.  If some row is not
    valid JSON, decoding raises: there is no partial result. *)
Theorem jsonl_decoding (content : string) :
  let rows := List.filter nonblank (TextIO.lines_of content) in
  ((forall l, In l rows -> exists v, json_loads l = Some v) ->
   exists values,
     decode_jsonl json json_loads content = Ret values
     /\ map Some values = map json_loads rows
     /\ length values = length rows)
  /\ ((exists l, In l rows /\ json_loads l = None) ->
      exists e, decode_jsonl json json_loads content = Raise e).
Proof.
  intros rows. subst rows. unfold decode_jsonl. split.
  - intros Hvalid.
    destruct (decode_lines_all_valid _ Hvalid []) as (values & Hrun & Hmap).
    exists values. repeat split; [exact Hrun | exact Hmap |].
    rewrite <- (length_map Some values), Hmap, length_map. reflexivity.
  - intros Hbad. apply decode_lines_malformed. exact Hbad.
Qed.

End Jsonl.

Lemma jsonl_decoding_witness :
  (exists values,
      decode_jsonl nat toy_loads good_jsonl = Ret values
      /\ map Some values
         = map toy_loads (List.filter nonblank (TextIO.lines_of good_jsonl))
      /\ length values = 2)
  /\ (exists e, decode_jsonl nat toy_loads bad_jsonl = Raise e).
Proof.
  split.
  - apply (proj1 (jsonl_decoding nat toy_loads good_jsonl)).
    intros l Hl. vm_compute in Hl.
    destruct Hl as [<- | [<- | []]]; exists 0; reflexivity.
  - apply (proj2 (jsonl_decoding nat toy_loads bad_jsonl)).
    exists ("{oops" +:+ nl). split; [vm_compute; auto | reflexivity].
Defined.

(** *** Files written one row per line *)

Lemma has_char_app (c : ascii) (s t : string) :
  has_char c (s +:+ t) = has_char c s || has_char c t.
Proof.
  induction s as [| d s IH]; [reflexivity |].
  simpl. rewrite IH, orb_assoc. reflexivity.
Qed.

Lemma universal_newlines_id (s : string) :
  has_char TextIO.CR s = false -> TextIO.universal_newlines s = s.
Proof.
  induction s as [| c s IH]; intros H; [reflexivity |].
  cbn [has_char] in H. apply orb_false_iff in H as [Hc Hs].
  cbn [TextIO.universal_newlines]. rewrite Hc, (IH Hs). reflexivity.
Qed.

Lemma keepends_row (row rest : string) :
  has_char TextIO.LF row = false ->
  TextIO.keepends (row +:+ nl +:+ rest) = (row +:+ nl) :: TextIO.keepends rest.
Proof.
  induction row as [| c row IH]; intros H.
  - reflexivity.
  - cbn [has_char] in H. apply orb_false_iff in H as [Hc Hrow].
    simpl. rewrite Hc, (IH Hrow). reflexivity.
Qed.

Lemma has_cr_unlines (rows : list string) :
  forallb one_line rows = true -> has_char TextIO.CR (unlines rows) = false.
Proof.
  induction rows as [| row rows IH]; intros H; [reflexivity |].
  cbn [forallb] in H. apply andb_true_iff in H as [Hrow Hrows].
  unfold one_line in Hrow. apply andb_true_iff in Hrow as [_ Hcr].
  apply negb_true_iff in Hcr.
  cbn [unlines]. rewrite !has_char_app, Hcr, (IH Hrows). reflexivity.
Qed.

(** reading back a file written one row per line gives the rows, each
    with its line feed *)
Lemma lines_of_unlines (rows : list string) :
  forallb one_line rows = true ->
  TextIO.lines_of (unlines rows) = map (fun row => row +:+ nl) rows.
Proof.
  intros H. unfold TextIO.lines_of.
  rewrite (universal_newlines_id _ (has_cr_unlines _ H)).
  induction rows as [| row rows IH]; [reflexivity |].
  cbn [forallb] in H. apply andb_true_iff in H as [Hrow Hrows].
  unfold one_line in Hrow. apply andb_true_iff in Hrow as [Hlf _].
  apply negb_true_iff in Hlf.
  cbn [unlines map]. rewrite (keepends_row _ _ Hlf), (IH Hrows). reflexivity.
Qed.

Lemma truthy_rstrip (s : string) :
  PyStr.truthy (PyStr.rstrip s) = has_nonspace s.
Proof.
  induction s as [| c s IH]; [reflexivity |].
  cbn [PyStr.rstrip has_nonspace]. rewrite <- IH.
  destruct (PyStr.rstrip s); destruct (PyStr.isspace c); reflexivity.
Qed.

Lemma has_nonspace_lstrip (s : string) :
  has_nonspace (PyStr.lstrip s) = has_nonspace s.
Proof.
  induction s as [| c s IH]; [reflexivity |].
  cbn [PyStr.lstrip]. destruct (PyStr.isspace c) eqn:Hc.
  - rewrite IH. cbn [has_nonspace]. rewrite Hc. reflexivity.
  - reflexivity.
Qed.

Lemma nonblank_has_nonspace (s : string) : nonblank s = has_nonspace s.
Proof.
  unfold nonblank, PyStr.strip. rewrite truthy_rstrip. apply has_nonspace_lstrip.
Qed.

Lemma has_nonspace_app (s t : string) :
  has_nonspace (s +:+ t) = has_nonspace s || has_nonspace t.
Proof.
  induction s as [| c s IH]; [reflexivity |].
  simpl. rewrite IH, orb_assoc. reflexivity.
Qed.

(** the line feed that closes a row does not make a blank row non-blank *)
Lemma nonblank_with_newline (row : string) : nonblank (row +:+ nl) = nonblank row.
Proof.
  rewrite !nonblank_has_nonspace, has_nonspace_app. cbn. apply orb_false_r.
Qed.

Lemma filter_nonblank_rows (rows : list string) :
  List.filter nonblank (map (fun row => row +:+ nl) rows)
  = map (fun row => row +:+ nl) (List.filter nonblank rows).
Proof.
  induction rows as [| row rows IH]; [reflexivity |].
  cbn [map List.filter]. rewrite nonblank_with_newline.
  destruct (nonblank row); cbn [map]; rewrite IH; reflexivity.
Qed.

(** A file of [N] rows of valid JSON, with any number of blank rows
    between, before and after them, decodes to the [N] values in order. *)
Lemma jsonl_file_of_rows (json : Type) (json_loads : string -> option json)
    (rows : list string) :
  forallb one_line rows = true ->
  (forall row, In row rows -> nonblank row = true ->
               exists v, json_loads (row +:+ nl) = Some v) ->
  exists values,
    decode_jsonl json json_loads (unlines rows) = Ret values
    /\ map Some values
       = map (fun row => json_loads (row +:+ nl)) (List.filter nonblank rows)
    /\ length values = length (List.filter nonblank rows).
Proof.
  intros Hrows Hvalid. unfold decode_jsonl. rewrite (lines_of_unlines _ Hrows).
  destruct (decode_lines_all_valid json json_loads (map (fun row => row +:+ nl) rows))
    with (acc := @nil json) as (values & Hrun & Hmap).
  - rewrite filter_nonblank_rows. intros l Hl.
    apply in_map_iff in Hl as (row & <- & Hrow).
    apply filter_In in Hrow as [Hin Hnb]. apply Hvalid; assumption.
  - rewrite filter_nonblank_rows, map_map in Hmap.
    exists values. repeat split; [exact Hrun | exact Hmap |].
    rewrite <- (length_map Some values), Hmap, length_map. reflexivity.
Qed.

(** ** Reach of the analysis handlers *)

Lemma startswith_slash_app (name suffix : string) :
  PyStr.startswith name "/" = true ->
  PyStr.startswith (name +:+ suffix) "/" = true.
Proof.
  destruct name as [| a name]; [discriminate |].
  simpl. destruct (Ascii.eqb a "/"); [reflexivity | discriminate].
Qed.

(** an absolute [log_file] replaces both roots: the path examined and
    given to the tool is the name itself, and the output is declared next
    to it *)
Lemma absolute_log_file_replaces_roots (cwd name : string) :
  PyStr.startswith name "/" = true ->
  input_path cwd (PostHayabusa (mkAnalysisRequest name)) = name
  /\ declared_output cwd (PostHayabusa (mkAnalysisRequest name))
     = name +:+ "-hayabusa-report.jsonl".
Proof.
  intros Habs. cbn [input_path declared_output log_file]. unfold OsPath.join.
  rewrite Habs, (startswith_slash_app _ _ Habs). split; reflexivity.
Qed.

(** C2.  The analysis handlers accept names that lead outside the data
    and results roots.  On the sample installation:
    - Takajo, given the absolute path of a report under [/srv], succeeds
      and removes the directory [/srv/case-takajo-analysis] with the file
      in it;
    - Hayabusa search, given the absolute [log_file] [/etc/passwd],
      succeeds; it examined [/etc/passwd], ran the tool on it and declared
      an output file next to it;
    - Hayabusa search, given a keyword with [..] segments, hands the tool
      an output path that leaves the results root. *)
Theorem analysis_reaches_outside_roots :
  let takajo :=
    respond (analyze tool_ok
               (PostTakajo (mkTakajoRequest "/srv/case-hayabusa-report.jsonl")))
      (boot demo_fs "/app") in
  let search :=
    respond (analyze tool_ok
               (PostHayabusaSearch (mkHayabusaSearchRequest "/etc/passwd" "root")))
      (boot demo_fs "/app") in
  let keyworded :=
    respond (analyze tool_ok
               (PostHayabusaSearch
                  (mkHayabusaSearchRequest "evtx1.evtx" "x/../../../../etc/cron.d/job")))
      (boot demo_fs "/app") in
  (status (fst takajo) = 200
   /\ removed_paths (w_trace (snd takajo)) = ["/srv/case-takajo-analysis"]
   /\ inside_a_root "/srv/case-takajo-analysis" = false
   /\ demo_fs !! ["srv"; "case-takajo-analysis"; "evidence.csv"]
      = Some (Fs.File "kept elsewhere")
   /\ w_fs (snd takajo) !! ["srv"; "case-takajo-analysis"; "evidence.csv"] = None)
  /\ (status (fst search) = 200
      /\ output_location_of (fst search) = Some "/etc/passwd-search-root.csv"
      /\ In "/etc/passwd" (outside_paths (w_trace (snd search)))
      /\ In "/etc/passwd-search-root.csv" (outside_paths (w_trace (snd search))))
  /\ (status (fst keyworded) = 200
      /\ In "/data/results/evtx1.evtx-search-x/../../../../etc/cron.d/job.csv"
           (outside_paths (w_trace (snd keyworded)))).
Proof.
  vm_compute. repeat split; auto 10.
Qed.

(** * Further properties of the handlers *)

Ltac unfold_extra H :=
  cbv beta iota zeta delta
    [validated input_path guarded_name binary_of declared_output remover runs_tool
     tool_dir command_of tool_label binary_not_found input_not_found
     log_file search_log_file keyword hayabusa_report_file] in H.

Ltac unfold_extra_goal :=
  cbv beta iota zeta delta
    [validated input_path guarded_name binary_of declared_output remover runs_tool
     tool_dir command_of tool_label binary_not_found input_not_found
     log_file search_log_file keyword hayabusa_report_file].

(** ** Validation failures of the analysis routes *)

(** X1.  At every analysis route a missing tool binary is answered with
    status 500 and the message "<Tool> binary not found at <path>".  The
    handler has then looked at the binary only: the input is not examined,
    nothing is removed and nothing is started. *)
Theorem missing_binary_is_500 (spawn : list string -> string -> Fs.fs -> completed)
    (c : api_call) (m : Fs.fs) (cwd : string) :
  Fs.exists_ m cwd (binary_of c) = false ->
  respond (analyze spawn c) (boot m cwd)
  = (binary_not_found c, mkWorld m cwd [EvStat (binary_of c)]).
Proof.
  intros Hbin.
  destruct c as [[l] | [l kw] | [l] | [l]];
    unfold_extra Hbin; unfold_extra_goal; run_handler; rewrite Hbin; reflexivity.
Qed.

Lemma missing_binary_is_500_witness :
  status (fst (respond (analyze tool_ok (PostTakajo (mkTakajoRequest "/data/results/evtx1.evtx-hayabusa-report.jsonl")))
                 (boot bare_fs "/app"))) = 500.
Proof.
  rewrite (missing_binary_is_500 tool_ok
             (PostTakajo (mkTakajoRequest "/data/results/evtx1.evtx-hayabusa-report.jsonl"))
             bare_fs "/app"); [reflexivity | vm_compute; reflexivity].
Defined.

(** X2.  With the binary present, an input that fails validation (its
    guarded name contains [..], or the input path is not a regular file:
    missing, or a directory) is answered with the 404 of the route.  The
    file system is unchanged and the handler only looked at paths. *)
Theorem rejected_input_is_404 (spawn : list string -> string -> Fs.fs -> completed)
    (c : api_call) (m : Fs.fs) (cwd : string) :
  Fs.exists_ m cwd (binary_of c) = true ->
  validated m cwd c = false ->
  let run := respond (analyze spawn c) (boot m cwd) in
  fst run = input_not_found cwd c
  /\ w_fs (snd run) = m
  /\ forallb is_stat (w_trace (snd run)) = true.
Proof.
  intros Hbin Hbad run. subst run.
  unfold validated in Hbad. rewrite Hbin in Hbad. cbn [andb] in Hbad.
  destruct c as [[l] | [l kw] | [l] | [l]];
    unfold_extra Hbin; unfold_extra Hbad; unfold_extra_goal; run_handler;
    rewrite Hbin; run_handler;
    destruct (PyStr.contains ".." _) eqn:Hdots; run_handler;
    try (repeat split; reflexivity);
    cbn [negb andb] in Hbad; rewrite Hbad; run_handler; repeat split; reflexivity.
Qed.

Lemma rejected_input_is_404_witness :
  fst (respond (analyze tool_ok (PostHayabusa (mkAnalysisRequest "results")))
         (boot demo_fs "/app"))
  = HttpError 404 (DetailDict "Log file not found at /data/results." None None).
Proof.
  refine (proj1 (rejected_input_is_404 tool_ok (PostHayabusa (mkAnalysisRequest "results"))
                   demo_fs "/app" _ _)); vm_compute; reflexivity.
Defined.

(** ** The process a request starts *)

(** X3.  A request starts at most one process.  When it starts one, the
    call is for a tool that is run (not Chainsaw) and passed validation,
    the argument vector is the one the route builds, and the working
    directory is the install directory of the tool. *)
Theorem at_most_one_process (spawn : list string -> string -> Fs.fs -> completed)
    (c : api_call) (m : Fs.fs) (cwd : string) :
  let trace := w_trace (snd (respond (analyze spawn c) (boot m cwd))) in
  (forall cmd dir before,
      In (EvSpawn cmd dir before) trace ->
      cmd = command_of cwd c /\ dir = tool_dir c
      /\ runs_tool c = true /\ validated m cwd c = true)
  /\ length (List.filter is_spawn trace) <= 1.
Proof.
  intros trace. subst trace.
  destruct c as [[l] | [l kw] | [l] | [l]];
    unfold_extra_goal; run_handler; repeat branch;
    (split; [intros cmd dir before Hin; in_trace Hin; repeat split; reflexivity
            | cbn; lia]).
Qed.

(** X4.  A successful answer of a route that runs a tool reports the
    process that the request started.  The trace of the request holds the
    start of exactly one process, with the argument vector and the working
    directory of the route; that process, started on the file system the
    trace records, exited with code 0; [stdout] and [stderr] of the answer
    are its captured streams; [command_run] is its argument vector joined
    by spaces; and the disk is as that process left it. *)
Theorem success_reports_the_run (spawn : list string -> string -> Fs.fs -> completed)
    (c : api_call) (m : Fs.fs) (cwd : string) (body : AnalysisResponse) :
  runs_tool c = true ->
  let run := respond (analyze spawn c) (boot m cwd) in
  fst run = Http200 body ->
  exists before out err after,
    List.filter is_spawn (w_trace (snd run))
    = [EvSpawn (command_of cwd c) (tool_dir c) before]
    /\ spawn (command_of cwd c) (tool_dir c) before = Exited 0 out err after
    /\ stdout body = Some out
    /\ stderr body = Some err
    /\ command_run body = PyStr.join " " (command_of cwd c)
    /\ w_fs (snd run) = after.
Proof.
  intros Hruns run. subst run.
  destruct c as [[l] | [l kw] | [l] | [l]]; try discriminate Hruns;
    unfold_extra_goal; run_handler; repeat branch; intros Hok; try discriminate Hok;
    injection Hok as <-;
    match goal with
    | Hz : Z.eqb _ 0 = true |- _ => apply Z.eqb_eq in Hz; subst
    end;
    do 4 eexists; (split; [reflexivity |]); (split; [eassumption |]);
    repeat split; reflexivity.
Qed.

Lemma success_reports_the_run_witness :
  exists before out err after,
    List.filter is_spawn
      (w_trace (snd (respond
                       (analyze tool_ok
                          (PostHayabusaSearch
                             (mkHayabusaSearchRequest "evtx1.evtx" "mimikatz")))
                       (boot demo_fs "/app"))))
    = [EvSpawn
         (command_of "/app" (PostHayabusaSearch (mkHayabusaSearchRequest "evtx1.evtx" "mimikatz")))
         HAYABUSA_DIR before]
    /\ tool_ok (command_of "/app" (PostHayabusaSearch (mkHayabusaSearchRequest "evtx1.evtx" "mimikatz")))
         HAYABUSA_DIR before = Exited 0 out err after
    /\ Some "done" = Some out
    /\ Some "" = Some err
    /\ "/tools/hayabusa/hayabusa search -f /data/evtx1.evtx -k mimikatz -o /data/results/evtx1.evtx-search-mimikatz.csv"
       = PyStr.join " " (command_of "/app" (PostHayabusaSearch (mkHayabusaSearchRequest "evtx1.evtx" "mimikatz")))
    /\ w_fs (snd (respond
                    (analyze tool_ok
                       (PostHayabusaSearch
                          (mkHayabusaSearchRequest "evtx1.evtx" "mimikatz")))
                    (boot demo_fs "/app"))) = after.
Proof.
  apply (success_reports_the_run tool_ok
           (PostHayabusaSearch (mkHayabusaSearchRequest "evtx1.evtx" "mimikatz"))
           demo_fs "/app"
           (mkAnalysisResponse
              "Hayabusa search for 'mimikatz' complete on evtx1.evtx"
              "/data/results/evtx1.evtx-search-mimikatz.csv"
              "Hayabusa Search" (Some "done") (Some "")
              "/tools/hayabusa/hayabusa search -f /data/evtx1.evtx -k mimikatz -o /data/results/evtx1.evtx-search-mimikatz.csv"
              None) eq_refl).
  vm_compute. reflexivity.
Defined.

(** X5.  When the process cannot be started, the [OSError] of
    [subprocess.run] is not caught by the handler (only
    [CalledProcessError] is): the client gets the plain 500 of the
    framework, and the disk stays as the cleaning step left it. *)
Theorem launch_failure_is_plain_500 (spawn : list string -> string -> Fs.fs -> completed)
    (c : api_call) (m : Fs.fs) (cwd : string)
    (cmd : list string) (dir : string) (before : Fs.fs) (why : string) :
  let run := respond (analyze spawn c) (boot m cwd) in
  In (EvSpawn cmd dir before) (w_trace (snd run)) ->
  spawn cmd dir before = NotStarted why ->
  fst run = HttpCrash /\ w_fs (snd run) = before.
Proof.
  intros run. subst run.
  destruct c as [[l] | [l kw] | [l] | [l]];
    run_handler; repeat branch; intros Hin Hrun; in_trace Hin;
    try congruence; split; reflexivity.
Qed.

Lemma launch_failure_is_plain_500_witness :
  fst (respond (analyze tool_missing_loader (PostHayabusa (mkAnalysisRequest "evtx1.evtx")))
         (boot demo_fs "/app")) = HttpCrash.
Proof.
  refine (proj1 (launch_failure_is_plain_500 tool_missing_loader
                   (PostHayabusa (mkAnalysisRequest "evtx1.evtx")) demo_fs "/app"
                   (command_of "/app" (PostHayabusa (mkAnalysisRequest "evtx1.evtx")))
                   HAYABUSA_DIR
                   (delete ["data"; "results"; "evtx1.evtx-hayabusa-report.jsonl"] demo_fs)
                   "[Errno 8] Exec format error" _ _)).
  - apply list_elem_of_In. apply (bool_decide_unpack _). vm_compute. exact I.
  - reflexivity.
Defined.

(** ** The files a Takajo run reports *)

Lemma files_below_spec (k : list string) (m : Fs.fs) (names : list string) :
  In names (Fs.files_below k m)
  <-> exists content, m !! (k ++ names) = Some (Fs.File content).
Proof.
  unfold Fs.files_below. rewrite <- list_elem_of_In, list_elem_of_omap. split.
  - intros ([key node] & Hin & Hsome). apply elem_of_map_to_list in Hin.
    cbn in Hsome. destruct node as [content |]; [| discriminate].
    destruct (Fs.below k key) eqn:Hb; [| discriminate].
    injection Hsome as <-. exists content.
    unfold Fs.below in Hb. apply bool_decide_eq_true_1 in Hb.
    destruct Hb as [rest ->]. rewrite drop_app_length. exact Hin.
  - intros [content Hk]. exists (k ++ names, Fs.File content). split.
    + apply elem_of_map_to_list. exact Hk.
    + cbn. unfold Fs.below. rewrite bool_decide_eq_true_2 by (apply prefix_app_r; reflexivity).
      rewrite drop_app_length. reflexivity.
Qed.

Lemma replace_backslash_from (s : string) :
  has_char (ascii_of_nat 92) (PyStr.replace_from PyStr.backslash "/" 0 s) = false.
Proof.
  induction s as [| c s IH]; [reflexivity |].
  cbn [PyStr.replace_from]. unfold PyStr.backslash at 1. cbn [PyStr.startswith].
  destruct (Ascii.eqb c (ascii_of_nat 92)) eqn:Hc.
  - cbn [String.length Nat.sub PyStr.backslash]. simpl. exact IH.
  - cbn [has_char]. rewrite Hc, IH. reflexivity.
Qed.

Lemma render_relative_no_backslash (names : list string) :
  has_char (ascii_of_nat 92) (render_relative names) = false.
Proof. apply replace_backslash_from. Qed.

Lemma isdir_namei (m : Fs.fs) (cwd path : string) :
  Fs.isdir m cwd path = true -> exists k, Fs.namei m cwd path = Some k.
Proof.
  unfold Fs.isdir, Fs.stat. destruct (Fs.namei m cwd path) as [k |]; [eauto | discriminate].
Qed.

(** X6.  A successful Takajo answer carries [generated_files].  If the
    scanned output directory does not exist after the run the list is
    empty; otherwise its entries are the relative paths of the regular
    files found anywhere below that directory, and only those.  No entry
    contains a backslash. *)
Theorem takajo_reports_generated_files
    (spawn : list string -> string -> Fs.fs -> completed)
    (r : TakajoRequest) (m : Fs.fs) (cwd : string) (body : AnalysisResponse) :
  let run := respond (analyze spawn (PostTakajo r)) (boot m cwd) in
  let scanned := scanned_directory cwd r in
  fst run = Http200 body ->
  exists found,
    generated_files body = Some (map render_relative found)
    /\ (Fs.isdir (w_fs (snd run)) cwd scanned = false -> found = [])
    /\ (forall k,
          Fs.isdir (w_fs (snd run)) cwd scanned = true ->
          Fs.namei (w_fs (snd run)) cwd scanned = Some k ->
          forall names,
            In names found
            <-> exists content, w_fs (snd run) !! (k ++ names) = Some (Fs.File content))
    /\ Forall (fun f => has_char (ascii_of_nat 92) f = false) (map render_relative found).
Proof.
  intros run scanned. subst run scanned. unfold scanned_directory. destruct r as [l].
  unfold_extra_goal. run_handler. repeat branch; intros Hok; try discriminate Hok;
    injection Hok as <-.
  all: first [ exists []; split; [reflexivity |] | eexists; split; [reflexivity |] ].
  all: split; [intros Hd; try reflexivity; congruence |].
  all: split; [intros k Hd Hk names; try congruence |
               apply List.Forall_forall; intros f Hf; apply in_map_iff in Hf as (names & <- & _);
               apply render_relative_no_backslash].
  all: match goal with
       | E : Fs.namei ?a ?b ?c = Some ?k1, Hk : Fs.namei ?a ?b ?c = Some ?k2 |- _ =>
           rewrite E in Hk; injection Hk as <-
       end; apply files_below_spec.
Qed.

Lemma takajo_reports_generated_files_witness :
  exists found,
    Some ["summary.csv"] = Some (map render_relative found)
    /\ In ["summary.csv"] found.
Proof.
  destruct (takajo_reports_generated_files tool_writes
              (mkTakajoRequest "/data/results/evtx1.evtx-hayabusa-report.jsonl")
              demo_fs "/app"
              (mkAnalysisResponse
                 "Takajo 'automagic' analysis complete for /data/results/evtx1.evtx-hayabusa-report.jsonl"
                 "/data/results/evtx1.evtx-takajo-analysis"
                 "Takajo" (Some "done") (Some "")
                 "/tools/takajo/takajo automagic -t /data/results/evtx1.evtx-hayabusa-report.jsonl -o /data/results/evtx1.evtx-takajo-analysis"
                 (Some ["summary.csv"])))
    as (found & Hmap & _ & Hiff & _).
  - vm_compute. reflexivity.
  - exists found. split; [exact Hmap |].
    apply (Hiff ["data"; "results"; "evtx1.evtx-takajo-analysis"]).
    + vm_compute. reflexivity.
    + vm_compute. reflexivity.
    + exists "a,b". vm_compute. reflexivity.
Defined.

(** ** GET /tools *)

Lemma present_binary_is_not_missing (spawn : list string -> string -> Fs.fs -> completed)
    (c : api_call) (m : Fs.fs) (cwd : string) :
  Fs.exists_ m cwd (binary_of c) = true ->
  fst (respond (analyze spawn c) (boot m cwd)) <> binary_not_found c.
Proof.
  intros Hbin.
  destruct c as [[l] | [l kw] | [l] | [l]];
    unfold_extra Hbin; unfold_extra_goal; run_handler; rewrite Hbin; run_handler;
    repeat branch; discriminate.
Qed.

(** X7.  GET /tools answers with the three tools in the order Hayabusa,
    Chainsaw, Takajo and only looks at the three binaries.  Its [exists]
    flag for a tool is false exactly when an analysis call for that tool,
    on the same file system, is answered "binary not found". *)
Theorem tools_report_matches_analysis (m : Fs.fs) (cwd : string) :
  exists report,
    check_tools (boot m cwd)
    = (Ret report,
       mkWorld m cwd [EvStat HAYABUSA_PATH; EvStat CHAINSAW_PATH; EvStat TAKAJO_PATH])
    /\ map name report = ["Hayabusa"; "Chainsaw"; "Takajo"]
    /\ forall spawn c,
        exists entry,
          In entry report
          /\ name entry = tool_label c
          /\ path entry = binary_of c
          /\ (exists_ entry = false
              <-> fst (respond (analyze spawn c) (boot m cwd)) = binary_not_found c).
Proof.
  eexists. split; [reflexivity |]. split; [reflexivity |].
  intros spawn c.
  exists (mkToolCheckResponse (tool_label c) (Fs.exists_ m cwd (binary_of c)) (binary_of c)).
  split; [destruct c; cbn; auto |].
  split; [reflexivity |]. split; [reflexivity |].
  cbn [exists_]. split.
  - intros Hmissing.
    destruct c as [[l] | [l kw] | [l] | [l]];
      unfold_extra Hmissing; unfold_extra_goal; run_handler; rewrite Hmissing;
      reflexivity.
  - intros Hanswer. destruct (Fs.exists_ m cwd (binary_of c)) eqn:Hbin; [| reflexivity].
    exfalso. exact (present_binary_is_not_missing spawn c m cwd Hbin Hanswer).
Qed.

(** ** GET /logs and GET /logs/results *)

Lemma children_spec (k : list string) (m : Fs.fs) (n : string) :
  In n (Listing.children k m) <-> is_Some (m !! (k ++ [n])).
Proof.
  unfold Listing.children. rewrite <- list_elem_of_In, list_elem_of_omap. split.
  - intros ([key node] & Hin & Hsome). apply elem_of_map_to_list in Hin.
    cbn in Hsome. destruct (last key) as [n' |]; [| discriminate].
    destruct (bool_decide (key = k ++ [n'])) eqn:Hkey; [| discriminate].
    injection Hsome as ->. apply bool_decide_eq_true_1 in Hkey. subst key. eauto.
  - intros [node Hnode]. exists (k ++ [n], node). split.
    + apply elem_of_map_to_list. exact Hnode.
    + cbn. rewrite last_snoc, bool_decide_eq_true_2 by reflexivity. reflexivity.
Qed.

Lemma NoDup_omap_keys {A B : Type} (f : list string * A -> option B)
    (g : B -> list string) (l : list (list string * A)) :
  (forall kv b, f kv = Some b -> kv.1 = g b) ->
  NoDup (l.*1) -> NoDup (omap f l).
Proof.
  intros Hkey. induction l as [| kv l IH]; intros Hnd; [constructor |].
  cbn in Hnd. apply NoDup_cons in Hnd as [Hfresh Hnd].
  change (omap f (kv :: l))
    with (match f kv with Some b => b :: omap f l | None => omap f l end).
  destruct (f kv) as [b |] eqn:Hb; [| apply IH; exact Hnd].
  apply NoDup_cons. split; [| apply IH; exact Hnd].
  intros Hin. apply list_elem_of_omap in Hin as (kv' & Hin' & Hb').
  apply Hfresh. rewrite (Hkey _ _ Hb), <- (Hkey _ _ Hb').
  apply list_elem_of_fmap. exists kv'. split; [reflexivity | exact Hin'].
Qed.

Lemma children_NoDup (k : list string) (m : Fs.fs) : NoDup (Listing.children k m).
Proof.
  unfold Listing.children.
  apply (NoDup_omap_keys _ (fun n => k ++ [n])); [| apply NoDup_fst_map_to_list].
  intros [key node] n. cbn. destruct (last key) as [n' |]; [| discriminate].
  destruct (bool_decide (key = k ++ [n'])) eqn:Hkey; [| discriminate].
  intros [= <-]. apply bool_decide_eq_true_1 in Hkey. exact Hkey.
Qed.

(** the comprehension keeps the names that [os.path.isfile] accepts, in
    order, and only looks at the file system *)
Lemma keep_files_run (dir : string) (names : list string) (w : world) :
  keep_files dir names w
  = (Ret (List.filter (fun f => Fs.isfile (w_fs w) (w_cwd w) (OsPath.join dir f)) names),
     mkWorld (w_fs w) (w_cwd w)
       (w_trace w ++ map (fun f => EvStat (OsPath.join dir f)) names)).
Proof.
  revert w. induction names as [| f rest IH]; intros [m cwd t].
  - cbn. rewrite app_nil_r. reflexivity.
  - cbn [keep_files]. unfold bind at 1. unfold Os.path_isfile at 1.
    unfold bind, emit, get_fs, getcwd, ret. cbn [w_fs w_cwd w_trace].
    rewrite IH. cbn [w_fs w_cwd w_trace List.filter map].
    rewrite <- app_assoc. cbn [app].
    destruct (Fs.isfile m cwd (OsPath.join dir f)); reflexivity.
Qed.

Lemma scan_directory_run (dir : string) (m : Fs.fs) (cwd : string) :
  exists l w',
    scan_directory dir (boot m cwd) = (Ret l, w')
    /\ w_fs w' = m
    /\ forallb (fun e => negb (is_spawn e)) (w_trace w') = true
    /\ (Fs.isdir m cwd dir = false -> l = [])
    /\ (forall k, Fs.isdir m cwd dir = true -> Fs.namei m cwd dir = Some k ->
                  l = List.filter not_placeholder
                        (List.filter (fun f => Fs.isfile m cwd (OsPath.join dir f))
                           (Listing.children k m))).
Proof.
  unfold scan_directory, Listing.listdir, Os.path_exists, Fs.exists_, Fs.isdir.
  unfold bind at 1 2 3 4. unfold emit, get_fs, getcwd, ret, catch, boot. cbn [w_fs w_cwd w_trace].
  destruct (Fs.stat m cwd dir) as [[content |] |] eqn:Hstat; cbn [negb].
  - unfold bind, raise, ret, emit, get_fs, getcwd, is_Exception. cbn [w_fs w_cwd w_trace].
    rewrite Hstat. do 2 eexists. split; [reflexivity |].
    repeat split; try reflexivity; intros; discriminate.
  - unfold bind at 1 2 3 4. unfold emit, get_fs, getcwd, ret, raise. cbn [w_fs w_cwd w_trace].
    rewrite Hstat.
    destruct (Fs.namei m cwd dir) as [k |] eqn:Hk.
    + unfold bind. rewrite keep_files_run. cbn [w_fs w_cwd w_trace].
      do 2 eexists. split; [reflexivity |]. cbn [w_fs w_trace].
      split; [reflexivity |]. split.
      * rewrite forallb_app. cbn. apply forallb_forall.
        intros e He. apply in_map_iff in He as (f & <- & _). reflexivity.
      * split; [intros; discriminate |]. intros k' _ [= <-]. reflexivity.
    + unfold Fs.stat in Hstat. rewrite Hk in Hstat. discriminate.
  - do 2 eexists. split; [reflexivity |].
    repeat split; try reflexivity; intros; discriminate.
Qed.

(** *** Paths of directory entries *)

Lemma split_nonempty (s : string) : PyStr.split "/" s <> [].
Proof.
  destruct s as [| c s]; [discriminate |]. cbn [PyStr.split].
  destruct (Ascii.eqb c "/"); [discriminate |].
  destruct (PyStr.split "/" s); discriminate.
Qed.

Lemma split_plain (n : string) :
  has_char "/" n = false -> PyStr.split "/" n = [n].
Proof.
  induction n as [| c n IH]; intros H; [reflexivity |].
  cbn [has_char] in H. apply orb_false_iff in H as [Hc Hn].
  cbn [PyStr.split]. rewrite Hc, (IH Hn). reflexivity.
Qed.

Lemma split_snoc (dir n : string) :
  has_char "/" n = false ->
  PyStr.split "/" (dir +:+ "/" +:+ n) = PyStr.split "/" dir ++ [n].
Proof.
  intros Hn. induction dir as [| c dir IH].
  - change (PyStr.split "/" ("" +:+ "/" +:+ n)) with ("" :: PyStr.split "/" n).
    rewrite (split_plain _ Hn). reflexivity.
  - simpl. rewrite IH. destruct (Ascii.eqb c "/"); [reflexivity |].
    destruct (PyStr.split "/" dir) eqn:Hd; [| reflexivity].
    exfalso. exact (split_nonempty _ Hd).
Qed.

Lemma has_nul_app (s t : string) :
  Fs.has_nul (s +:+ t) = Fs.has_nul s || Fs.has_nul t.
Proof.
  induction s as [| c s IH]; [reflexivity |].
  simpl. rewrite IH, orb_assoc. reflexivity.
Qed.

Lemma walk_app (m : Fs.fs) (a b : list string) :
  forall cur,
    Fs.walk m cur (a ++ b)
    = match Fs.walk m cur a with
      | Some k => Fs.walk m k b
      | None => None
      end.
Proof.
  induction a as [| c a IH]; intros cur; [reflexivity |].
  cbn [app Fs.walk]. destruct (Fs.is_dir_key m cur); [| reflexivity].
  destruct (String.eqb c "" || String.eqb c "."); [apply IH |].
  destruct (String.eqb c ".."); [apply IH |].
  destruct (m !! (cur ++ [c])); [apply IH | reflexivity].
Qed.

Lemma plain_name_inv (n : string) :
  plain_name n = true ->
  PyStr.truthy n = true /\ String.eqb n "." = false /\ String.eqb n ".." = false
  /\ has_char "/" n = false /\ Fs.has_nul n = false.
Proof.
  unfold plain_name. rewrite !andb_true_iff, !negb_true_iff. tauto.
Qed.

Lemma plain_name_not_empty (n : string) : PyStr.truthy n = true -> String.eqb n "" = false.
Proof. destruct n; [discriminate | reflexivity]. Qed.

Lemma plain_name_relative (n : string) :
  has_char "/" n = false -> PyStr.startswith n "/" = false.
Proof.
  destruct n as [| c n]; [reflexivity |]. cbn [has_char PyStr.startswith].
  intros H. apply orb_false_iff in H as [-> _]. reflexivity.
Qed.

(** what [os.stat] finds for an entry name inside a directory *)
Lemma stat_child (m : Fs.fs) (cwd dir n : string) (k : list string) :
  Fs.namei m cwd dir = Some k ->
  Fs.is_dir_key m k = true ->
  plain_name n = true ->
  Fs.stat m cwd (dir +:+ "/" +:+ n) = m !! (k ++ [n]).
Proof.
  intros Hdir Hk Hn.
  apply plain_name_inv in Hn as (Hne & Hdot & Hdots & Hslash & Hnul).
  unfold Fs.stat, Fs.namei in *.
  destruct (negb (PyStr.truthy dir) || Fs.has_nul dir) eqn:Hguard; [discriminate |].
  apply orb_false_iff in Hguard as [Htruthy Hdnul].
  apply negb_false_iff in Htruthy.
  assert (PyStr.truthy (dir +:+ "/" +:+ n) = true) as ->
    by (destruct dir; [discriminate | reflexivity]).
  rewrite !has_nul_app, Hdnul, Hnul. cbn [negb orb Fs.has_nul Ascii.eqb].
  assert (OsPath.isabs (dir +:+ "/" +:+ n) = OsPath.isabs dir) as ->.
  { unfold OsPath.isabs. destruct dir; [discriminate | reflexivity]. }
  rewrite (split_snoc _ _ Hslash), walk_app, Hdir.
  cbn [Fs.walk]. rewrite Hk, (plain_name_not_empty _ Hne), Hdot, Hdots. cbn [orb].
  destruct (m !! (k ++ [n])) as [node |] eqn:Hnode; [| reflexivity].
  unfold Fs.node_at. destruct (k ++ [n]) eqn:Hkey; [| exact Hnode].
  destruct k; discriminate.
Qed.

Lemma join_child (dir n : string) :
  PyStr.truthy dir = true ->
  PyStr.endswith dir "/" = false ->
  has_char "/" n = false ->
  OsPath.join dir n = dir +:+ "/" +:+ n.
Proof.
  intros Hd Hend Hn. unfold OsPath.join.
  rewrite (plain_name_relative _ Hn), Hd, Hend. reflexivity.
Qed.

Lemma walk_name (m : Fs.fs) (cur : list string) (n : string) (node : Fs.node)
    (rest : list string) :
  Fs.is_dir_key m cur = true ->
  plain_name n = true ->
  m !! (cur ++ [n]) = Some node ->
  Fs.walk m cur (n :: rest) = Fs.walk m (cur ++ [n]) rest.
Proof.
  intros Hcur Hn Hnode.
  apply plain_name_inv in Hn as (Hne & Hdot & Hdots & _ & _).
  cbn [Fs.walk]. rewrite Hcur, (plain_name_not_empty _ Hne), Hdot, Hdots, Hnode.
  reflexivity.
Qed.

Lemma data_dir_resolves (m : Fs.fs) (cwd : string) :
  m !! ["data"] = Some Fs.Dir ->
  Fs.namei m cwd DATA_DIR = Some ["data"] /\ Fs.isdir m cwd DATA_DIR = true.
Proof.
  intros Hdata.
  assert (Fs.namei m cwd DATA_DIR = Some ["data"]) as Hk.
  { unfold Fs.namei.
    change (negb (PyStr.truthy DATA_DIR) || Fs.has_nul DATA_DIR) with false.
    change (OsPath.isabs DATA_DIR) with true.
    change (PyStr.split "/" DATA_DIR) with [""; "data"].
    cbv beta iota zeta.
    change (Fs.walk m [] [""; "data"]) with (Fs.walk m [] ["data"]).
    rewrite (walk_name m [] "data" Fs.Dir []); [reflexivity | reflexivity | reflexivity |].
    exact Hdata. }
  split; [exact Hk |]. unfold Fs.isdir, Fs.stat. rewrite Hk.
  unfold Fs.node_at. rewrite Hdata. reflexivity.
Qed.

Lemma results_dir_resolves (m : Fs.fs) (cwd : string) :
  m !! ["data"] = Some Fs.Dir ->
  m !! ["data"; "results"] = Some Fs.Dir ->
  Fs.namei m cwd RESULTS_DIR = Some ["data"; "results"]
  /\ Fs.isdir m cwd RESULTS_DIR = true.
Proof.
  intros Hdata Hresults.
  assert (Fs.namei m cwd RESULTS_DIR = Some ["data"; "results"]) as Hk.
  { unfold Fs.namei.
    change (negb (PyStr.truthy RESULTS_DIR) || Fs.has_nul RESULTS_DIR) with false.
    change (OsPath.isabs RESULTS_DIR) with true.
    change (PyStr.split "/" RESULTS_DIR) with [""; "data"; "results"].
    cbv beta iota zeta.
    change (Fs.walk m [] [""; "data"; "results"]) with (Fs.walk m [] ["data"; "results"]).
    rewrite (walk_name m [] "data" Fs.Dir); [| reflexivity | reflexivity | exact Hdata].
    rewrite (walk_name m ["data"] "results" Fs.Dir); [reflexivity | | reflexivity | exact Hresults].
    unfold Fs.is_dir_key, Fs.node_at. rewrite Hdata. reflexivity. }
  split; [exact Hk |]. unfold Fs.isdir, Fs.stat. rewrite Hk.
  unfold Fs.node_at. rewrite Hresults. reflexivity.
Qed.

Lemma listing_route_scans (r : listing) : listing_route r = scan_directory (listing_dir r).
Proof. destruct r; reflexivity. Qed.

Lemma mounted_resolves (m : Fs.fs) (cwd : string) (r : listing) :
  mounted m r ->
  Fs.namei m cwd (listing_dir r) = Some (listing_key r)
  /\ Fs.isdir m cwd (listing_dir r) = true
  /\ Fs.is_dir_key m (listing_key r) = true.
Proof.
  intros [Hdata Hr]. destruct r; cbn [listing_dir listing_key].
  - destruct (data_dir_resolves m cwd Hdata) as [Hk Hd]. repeat split; try assumption.
    unfold Fs.is_dir_key, Fs.node_at. rewrite Hdata. reflexivity.
  - destruct (results_dir_resolves m cwd Hdata Hr) as [Hk Hd]. repeat split; try assumption.
    unfold Fs.is_dir_key, Fs.node_at. rewrite Hr. reflexivity.
Qed.

Lemma NoDup_list_filter {A : Type} (f : A -> bool) (l : list A) :
  NoDup l -> NoDup (List.filter f l).
Proof.
  induction l as [| x l IH]; intros Hnd; [constructor |].
  apply NoDup_cons in Hnd as [Hfresh Hnd]. cbn [List.filter].
  destruct (f x); [| apply IH; exact Hnd].
  apply NoDup_cons. split; [| apply IH; exact Hnd].
  intros Hin. apply Hfresh. apply list_elem_of_In in Hin.
  apply filter_In in Hin as [Hin _]. apply list_elem_of_In. exact Hin.
Qed.

(** X8.  GET /logs and GET /logs/results never fail and never change the
    file system or start a process.  When the directory is missing or is
    not a directory the answer is the empty list.  Every listed name is a
    regular file when joined to the directory, is not [.gitkeep], and is
    listed once. *)
Theorem listing_is_safe (r : listing) (m : Fs.fs) (cwd : string) :
  exists l w',
    listing_route r (boot m cwd) = (Ret l, w')
    /\ w_fs w' = m
    /\ forallb (fun e => negb (is_spawn e)) (w_trace w') = true
    /\ (Fs.isdir m cwd (listing_dir r) = false -> l = [])
    /\ NoDup l
    /\ (forall f, In f l ->
                  Fs.isfile m cwd (OsPath.join (listing_dir r) f) = true
                  /\ f <> ".gitkeep").
Proof.
  rewrite listing_route_scans.
  destruct (scan_directory_run (listing_dir r) m cwd)
    as (l & w' & Hrun & Hfs & Hquiet & Hempty & Hfull).
  exists l, w'. repeat split; try assumption.
  - destruct (Fs.isdir m cwd (listing_dir r)) eqn:Hd.
    + destruct (isdir_namei _ _ _ Hd) as [k Hk]. rewrite (Hfull k eq_refl Hk).
      do 2 apply NoDup_list_filter. apply children_NoDup.
    + rewrite (Hempty eq_refl). constructor.
  - destruct (Fs.isdir m cwd (listing_dir r)) eqn:Hd.
    + destruct (isdir_namei _ _ _ Hd) as [k Hk]. rewrite (Hfull k eq_refl Hk) in H.
      apply filter_In in H as [H _]. apply filter_In in H as [_ H]. exact H.
    + rewrite (Hempty eq_refl) in H. destruct H.
  - destruct (Fs.isdir m cwd (listing_dir r)) eqn:Hd.
    + destruct (isdir_namei _ _ _ Hd) as [k Hk]. rewrite (Hfull k eq_refl Hk) in H.
      apply filter_In in H as [_ H]. unfold not_placeholder in H.
      apply negb_true_iff, String.eqb_neq in H. exact H.
    + rewrite (Hempty eq_refl) in H. destruct H.
Qed.

(** X9.  When the scanned directory exists, a plain entry name is listed
    exactly if it is a regular file directly in that directory and is not
    [.gitkeep]; subdirectories are not listed. *)
Theorem listing_is_exact (r : listing) (m : Fs.fs) (cwd : string) (n : string) :
  mounted m r ->
  plain_name n = true ->
  exists l w',
    listing_route r (boot m cwd) = (Ret l, w')
    /\ (In n l
        <-> n <> ".gitkeep"
            /\ exists content, m !! (listing_key r ++ [n]) = Some (Fs.File content)).
Proof.
  intros Hmounted Hn.
  destruct (mounted_resolves m cwd r Hmounted) as (Hk & Hd & Hkey).
  rewrite listing_route_scans.
  destruct (scan_directory_run (listing_dir r) m cwd)
    as (l & w' & Hrun & _ & _ & _ & Hfull).
  exists l, w'. split; [exact Hrun |].
  rewrite (Hfull _ Hd Hk), !filter_In, children_spec.
  assert (OsPath.join (listing_dir r) n = listing_dir r +:+ "/" +:+ n) as ->.
  { apply plain_name_inv in Hn as (_ & _ & _ & Hslash & _).
    apply join_child; [destruct r; reflexivity | destruct r; reflexivity | exact Hslash]. }
  unfold Fs.isfile. rewrite (stat_child m cwd _ n _ Hk Hkey Hn).
  unfold not_placeholder. rewrite negb_true_iff, String.eqb_neq.
  split.
  - intros [[_ Hfile] Hkeep]. split; [exact Hkeep |].
    destruct (m !! (listing_key r ++ [n])) as [[content |] |]; try discriminate. eauto.
  - intros [Hkeep [content Hfile]]. rewrite Hfile. repeat split; eauto.
Qed.

Lemma listing_is_exact_witness :
  exists l w',
    get_logs (boot kept_fs "/app") = (Ret l, w')
    /\ (In "evtx1.evtx" l
        <-> "evtx1.evtx" <> ".gitkeep"
            /\ exists content, kept_fs !! ["data"; "evtx1.evtx"] = Some (Fs.File content)).
Proof.
  apply (listing_is_exact Logs kept_fs "/app" "evtx1.evtx").
  - split; [vm_compute; reflexivity | exact I].
  - vm_compute. reflexivity.
Defined.

(** ** From the listing to an analysis *)

Lemma validated_is_not_404 (spawn : list string -> string -> Fs.fs -> completed)
    (c : api_call) (m : Fs.fs) (cwd : string) :
  validated m cwd c = true ->
  status (fst (respond (analyze spawn c) (boot m cwd))) <> 404.
Proof.
  intros Hvalid. unfold validated in Hvalid.
  apply andb_true_iff in Hvalid as [Hvalid Hfile].
  apply andb_true_iff in Hvalid as [Hbin Hdots]. apply negb_true_iff in Hdots.
  destruct c as [[l] | [l kw] | [l] | [l]];
    unfold_extra Hbin; unfold_extra Hdots; unfold_extra Hfile;
    run_handler; rewrite Hbin; run_handler; rewrite Hdots; run_handler;
    rewrite Hfile; run_handler; repeat branch; discriminate.
Qed.

(** X10.  A name that GET /logs lists and that contains no [..] passes the
    validation of every analysis route that takes a [log_file], provided
    the binary of the route is present: the answer is not 404. *)
Theorem listed_log_passes_validation
    (spawn : list string -> string -> Fs.fs -> completed)
    (c : api_call) (m : Fs.fs) (cwd : string) (l : list string) (f : string) :
  fst (get_logs (boot m cwd)) = Ret l ->
  In f l ->
  log_file_of c = Some f ->
  PyStr.contains ".." f = false ->
  Fs.exists_ m cwd (binary_of c) = true ->
  validated m cwd c = true
  /\ status (fst (respond (analyze spawn c) (boot m cwd))) <> 404.
Proof.
  intros Hrun Hin Hlog Hdots Hbin.
  destruct (scan_directory_run DATA_DIR m cwd) as (l0 & w0 & Hrun0 & _ & _ & Hempty & Hfull).
  unfold get_logs in Hrun. rewrite Hrun0 in Hrun. injection Hrun as <-.
  assert (Fs.isfile m cwd (OsPath.join DATA_DIR f) = true) as Hfile.
  { destruct (Fs.isdir m cwd DATA_DIR) eqn:Hd.
    - destruct (isdir_namei _ _ _ Hd) as [k Hk]. rewrite (Hfull k eq_refl Hk) in Hin.
      apply filter_In in Hin as [Hin _]. apply filter_In in Hin as [_ Hin]. exact Hin.
    - rewrite (Hempty eq_refl) in Hin. destruct Hin. }
  assert (validated m cwd c = true) as Hvalid.
  { unfold validated. rewrite Hbin.
    destruct c as [[x] | [x kw] | [x] | [x]]; cbn in Hlog; try discriminate;
      injection Hlog as ->; cbn [guarded_name input_path log_file search_log_file];
      rewrite Hdots, Hfile; reflexivity. }
  split; [exact Hvalid | apply validated_is_not_404; exact Hvalid].
Qed.

Lemma listed_log_passes_validation_witness :
  In "evtx1.evtx" ["my..log.evtx"; "blocked.evtx"; "evtx1.evtx"]
  /\ status (fst (respond (analyze tool_ok (PostHayabusa (mkAnalysisRequest "evtx1.evtx")))
                    (boot demo_fs "/app"))) <> 404.
Proof.
  split; [cbn; auto |].
  refine (proj2 (listed_log_passes_validation tool_ok
                   (PostHayabusa (mkAnalysisRequest "evtx1.evtx")) demo_fs "/app"
                   ["my..log.evtx"; "blocked.evtx"; "evtx1.evtx"] "evtx1.evtx"
                   _ _ eq_refl eq_refl _)).
  - vm_compute. reflexivity.
  - cbn. auto.
  - vm_compute. reflexivity.
Defined.

(** ** GET /results_file: what is served *)

(** X11.  When GET /results_file answers 200, the path it serves is the
    resolved target, lies strictly inside the results root and is a regular
    file; the media type is [text/plain] and the file name is the decoded
    [file_name]. *)
Theorem results_file_200_is_inside (analysis_directory file_name : string)
    (m : Fs.fs) (cwd : string) (resp : FileResponse) :
  fst (respond (get_result_file analysis_directory file_name) (boot m cwd)) = Http200 resp ->
  fr_path resp = results_target cwd analysis_directory file_name
  /\ Pathlib.mem (results_base cwd) (Pathlib.parents (fr_path resp)) = true
  /\ Fs.isfile m cwd (Pathlib.to_str (fr_path resp)) = true
  /\ fr_media_type resp = "text/plain"
  /\ fr_filename resp = Urllib.unquote file_name.
Proof.
  unfold results_target, results_base. run_handler.
  repeat match goal with
         | |- context [if Fs.has_nul ?s then _ else _] =>
             destruct (Fs.has_nul s); run_handler
         end; try discriminate.
  repeat match goal with
         | |- context [if Pathlib.mem ?a ?b then _ else _] =>
             destruct (Pathlib.mem a b) eqn:?; run_handler
         end; try discriminate.
  branch; intros Hok; try discriminate Hok. injection Hok as <-.
  cbn [fr_path fr_media_type fr_filename]. repeat split; assumption.
Qed.

Lemma results_file_200_is_inside_witness :
  Pathlib.mem (results_base "/app")
    (Pathlib.parents (Pathlib.mkPath "/"
       ["data"; "results"; "evtx1.evtx-takajo-analysis"; "old.csv"])) = true
  /\ Fs.isfile demo_fs "/app" "/data/results/evtx1.evtx-takajo-analysis/old.csv" = true.
Proof.
  destruct (results_file_200_is_inside "evtx1.evtx-takajo-analysis" "old%2Ecsv"
              demo_fs "/app"
              (mkFileResponse
                 (Pathlib.mkPath "/"
                    ["data"; "results"; "evtx1.evtx-takajo-analysis"; "old.csv"])
                 "text/plain" "old.csv"))
    as (_ & Hinside & Hfile & _).
  - vm_compute. reflexivity.
  - split; [exact Hinside | exact Hfile].
Defined.

(** X12.  When the target of GET /results_file is not a regular file, the
    answer is status 500 "Internal server error: ...": the 404 that the
    handler raises for a missing file is caught by its own
    [except Exception].  Nothing on disk changes. *)
Theorem results_file_missing_is_500 (analysis_directory file_name : string)
    (m : Fs.fs) (cwd : string) :
  Fs.isfile m cwd
    (Pathlib.to_str (results_target cwd analysis_directory file_name)) = false ->
  let run := respond (get_result_file analysis_directory file_name) (boot m cwd) in
  (exists why, fst run = HttpError 500 (DetailText ("Internal server error: " +:+ why)))
  /\ w_fs (snd run) = m.
Proof.
  unfold results_target, results_base. intros Hmissing. run_handler.
  repeat match goal with
         | |- context [if Fs.has_nul ?s then _ else _] =>
             destruct (Fs.has_nul s); run_handler
         end; try (split; [eexists; reflexivity | reflexivity]).
  repeat match goal with
         | |- context [if Pathlib.mem ?a ?b then _ else _] =>
             destruct (Pathlib.mem a b) eqn:?; run_handler
         end; try (split; [eexists; reflexivity | reflexivity]).
  rewrite Hmissing. run_handler. split; [eexists; reflexivity | reflexivity].
Qed.

Lemma results_file_missing_is_500_witness :
  exists why,
    fst (respond (get_result_file "evtx1.evtx-takajo-analysis" "missing.csv")
           (boot demo_fs "/app"))
    = HttpError 500 (DetailText ("Internal server error: " +:+ why)).
Proof.
  refine (proj1 (results_file_missing_is_500 "evtx1.evtx-takajo-analysis" "missing.csv"
                   demo_fs "/app" _)).
  vm_compute. reflexivity.
Defined.

Lemma unquote_plain (s : string) :
  has_char "%" s = false -> Urllib.unquote s = s.
Proof.
  induction s as [| c s IH]; intros H; [reflexivity |].
  cbn [has_char] in H. apply orb_false_iff in H as [Hc Hs].
  cbn [Urllib.unquote]. rewrite Hc, (IH Hs). reflexivity.
Qed.

Lemma parse_plain (n : string) :
  plain_name n = true -> Pathlib.parse n = Pathlib.mkPath "" [n].
Proof.
  intros Hn. apply plain_name_inv in Hn as (Hne & Hdot & _ & Hslash & _).
  unfold Pathlib.parse, Pathlib.parse_root, OsPath.initial_slashes.
  rewrite (plain_name_relative _ Hslash), (split_plain _ Hslash).
  cbn [List.filter]. unfold Pathlib.is_name.
  rewrite (plain_name_not_empty _ Hne), Hdot. reflexivity.
Qed.

(** X13.  For plain names without percent signs, GET
    /results_file/<dir>/<name> answers 200 with the file
    /data/results/<dir>/<name> whenever that is a regular file, and changes
    nothing on disk. *)
Theorem results_file_serves_plain_names (analysis_directory file_name : string)
    (m : Fs.fs) (cwd : string) :
  plain_name analysis_directory = true ->
  plain_name file_name = true ->
  has_char "%" analysis_directory = false ->
  has_char "%" file_name = false ->
  Fs.isfile m cwd ("/data/results/" +:+ analysis_directory +:+ "/" +:+ file_name) = true ->
  let run := respond (get_result_file analysis_directory file_name) (boot m cwd) in
  fst run
  = Http200
      (mkFileResponse
         (Pathlib.mkPath "/" ["data"; "results"; analysis_directory; file_name])
         "text/plain" file_name)
  /\ w_fs (snd run) = m.
Proof.
  intros Had Hfn Hpa Hpf Hfile.
  pose proof (plain_name_inv _ Had) as (_ & _ & Hdots_a & _ & Hnul_a).
  pose proof (plain_name_inv _ Hfn) as (_ & _ & Hdots_f & _ & Hnul_f).
  run_handler. rewrite (unquote_plain _ Hpa), (unquote_plain _ Hpf).
  change (Pathlib.to_str (Pathlib.parse RESULTS_DIR)) with "/data/results".
  change (Fs.has_nul "/data/results") with false. run_handler.
  change (Pathlib.resolve cwd (Pathlib.parse RESULTS_DIR))
    with (Pathlib.mkPath "/" ["data"; "results"]).
  unfold Pathlib.joinpath. rewrite (parse_plain _ Had), (parse_plain _ Hfn).
  cbn [Pathlib.root Pathlib.names PyStr.truthy app].
  assert (Pathlib.resolve cwd (Pathlib.mkPath "/" ["data"; "results"; analysis_directory])
          = Pathlib.mkPath "/" ["data"; "results"; analysis_directory]) as Hres1.
  { unfold Pathlib.resolve. cbn [Pathlib.root Pathlib.names PyStr.truthy Pathlib.collapse].
    change (String.eqb "data" "..") with false.
    change (String.eqb "results" "..") with false.
    cbn [Pathlib.collapse]. rewrite Hdots_a. reflexivity. }
  assert (Pathlib.to_str (Pathlib.mkPath "/" ["data"; "results"; analysis_directory])
          = "/data/results/" +:+ analysis_directory) as Hstr1 by reflexivity.
  rewrite Hstr1, has_nul_app, Hnul_a. change (Fs.has_nul "/data/results/") with false.
  run_handler. rewrite Hres1. cbn [Pathlib.root Pathlib.names app].
  assert (Pathlib.to_str
            (Pathlib.mkPath "/" ["data"; "results"; analysis_directory; file_name])
          = "/data/results/" +:+ analysis_directory +:+ "/" +:+ file_name) as Hstr2
      by reflexivity.
  rewrite Hstr2, !has_nul_app, Hnul_a, Hnul_f.
  change (Fs.has_nul "/data/results/") with false. change (Fs.has_nul "/") with false.
  run_handler.
  assert (Pathlib.resolve cwd
            (Pathlib.mkPath "/" ["data"; "results"; analysis_directory; file_name])
          = Pathlib.mkPath "/" ["data"; "results"; analysis_directory; file_name]) as Hres2.
  { unfold Pathlib.resolve. cbn [Pathlib.root Pathlib.names PyStr.truthy Pathlib.collapse].
    change (String.eqb "data" "..") with false.
    change (String.eqb "results" "..") with false.
    cbn [Pathlib.collapse]. rewrite Hdots_a. cbn [Pathlib.collapse]. rewrite Hdots_f.
    reflexivity. }
  rewrite Hres2, Hstr2.
  assert (Pathlib.mem (Pathlib.mkPath "/" ["data"; "results"])
            (Pathlib.parents (Pathlib.mkPath "/" ["data"; "results"; analysis_directory]))
          = true) as -> by reflexivity.
  assert (Pathlib.mem (Pathlib.mkPath "/" ["data"; "results"])
            (Pathlib.parents
               (Pathlib.mkPath "/" ["data"; "results"; analysis_directory; file_name]))
          = true) as ->.
  { unfold Pathlib.mem, Pathlib.parents. cbn [Pathlib.root Pathlib.names rev app
      Pathlib.ancestors existsb].
    apply orb_true_iff. right. apply orb_true_iff. left. reflexivity. }
  run_handler. rewrite Hfile. split; reflexivity.
Qed.

Lemma results_file_serves_plain_names_witness :
  fst (respond (get_result_file "evtx1.evtx-takajo-analysis" "old.csv")
         (boot demo_fs "/app"))
  = Http200
      (mkFileResponse
         (Pathlib.mkPath "/" ["data"; "results"; "evtx1.evtx-takajo-analysis"; "old.csv"])
         "text/plain" "old.csv").
Proof.
  refine (proj1 (results_file_serves_plain_names "evtx1.evtx-takajo-analysis" "old.csv"
                   demo_fs "/app" _ _ _ _ _)); vm_compute; reflexivity.
Defined.

(** ** What the cleaning step removes *)

(** X14.  The cleaning step removes nothing but the declared output
    location: a handler asks for the removal of at most one path, the
    declared output, and the file system a process starts on agrees with
    the one before the request at every path that is not at or below the
    output location. *)
Theorem only_declared_output_is_removed
    (spawn : list string -> string -> Fs.fs -> completed)
    (c : api_call) (m : Fs.fs) (cwd : string) :
  let trace := w_trace (snd (respond (analyze spawn c) (boot m cwd))) in
  let output := declared_output cwd c in
  (removed_paths trace = [] \/ removed_paths trace = [output])
  /\ (forall cmd dir before,
        In (EvSpawn cmd dir before) trace ->
        before = m
        \/ exists k,
            Fs.namei m cwd output = Some k
            /\ forall q, Fs.below k q = false -> before !! q = m !! q).
Proof.
  intros trace output. subst trace output.
  destruct c as [[l] | [l kw] | [l] | [l]];
    unfold_extra_goal; run_handler; repeat branch;
    (split; [cbn; auto | intros cmd dir before Hin; in_trace Hin; auto]).
  all: right; eexists; (split; [reflexivity |]); intros q Hq.
  all: first [ apply lookup_delete_ne; intros <-; rewrite below_refl in Hq; discriminate
             | rewrite lookup_prune, Hq; reflexivity ].
Qed.

(** ** Blank lines in a JSON Lines file *)

Lemma decode_lines_skips_blank (json : Type) (json_loads : string -> option json)
    (lines : list string) :
  forall acc,
    decode_lines json json_loads lines acc
    = decode_lines json json_loads (List.filter nonblank lines) acc.
Proof.
  induction lines as [| line rest IH]; intros acc; [reflexivity |].
  cbn [List.filter decode_lines]. fold (nonblank line).
  destruct (nonblank line) eqn:Hline.
  - cbn [decode_lines]. fold (nonblank line). rewrite Hline.
    destruct (json_loads line); [apply IH | reflexivity].
  - apply IH.
Qed.

Lemma one_line_filter (f : string -> bool) (rows : list string) :
  forallb one_line rows = true -> forallb one_line (List.filter f rows) = true.
Proof.
  intros H. apply forallb_forall. intros row Hrow.
  apply filter_In in Hrow as [Hrow _].
  exact (proj1 (forallb_forall one_line rows) H row Hrow).
Qed.

(** X15.  Blank rows do not change the result of decoding: a file and the
    same file without its blank rows decode to the same values, or both
    fail. *)
Theorem blank_rows_are_ignored (json : Type) (json_loads : string -> option json)
    (rows : list string) :
  forallb one_line rows = true ->
  decode_jsonl json json_loads (unlines rows)
  = decode_jsonl json json_loads (unlines (List.filter nonblank rows)).
Proof.
  intros Hrows. unfold decode_jsonl.
  rewrite (lines_of_unlines _ Hrows), (lines_of_unlines _ (one_line_filter _ _ Hrows)).
  rewrite decode_lines_skips_blank, filter_nonblank_rows. reflexivity.
Qed.

Lemma blank_rows_are_ignored_witness :
  decode_jsonl nat toy_loads good_jsonl
  = decode_jsonl nat toy_loads (unlines ["{}"; "{}"]).
Proof.
  apply (blank_rows_are_ignored nat toy_loads ["{}"; ""; "   "; "{}"]).
  vm_compute. reflexivity.
Defined.
